(** * ClashRoyaleService: the outbound API client of the tracker backend

    A shallow embedding of [backend/services/clash_royale_service.py].

    - Python [str] values are Rocq strings; tags, endpoints and URLs are
      ASCII text, and [upper] is [str.upper] on that range.
    - Python [int] is [Z]; [dict]s are [gmap]s keyed by strings.
    - A method of the class is a computation in the monad [M]: it reads and
      may update the client object and the log of [session.get] calls, and
      either returns a value or raises an exception.
    - The [requests] library and the network are the environment: the
      library's version-dependent facts are a record [RequestsLib], the
      network is an oracle answering each call from the history so far. *)

From Stdlib Require Import Ascii String ZArith.
From stdpp Require Import gmap strings list pretty.

#[local] Open Scope string_scope.
#[local] Open Scope Z_scope.
#[local] Set Warnings "-register-all".

(** ** Python string methods used by the service *)

Module PyStr.

(** [c in chars] for a one-character [c]. *)
Fixpoint mem_char (c : ascii) (chars : string) : bool :=
  match chars with
  | "" => false
  | String d rest => if decide (c = d) then true else mem_char c rest
  end.

(** [s.lstrip(chars)]: drop every leading character that occurs in [chars]. *)
Fixpoint lstrip (chars s : string) : string :=
  match s with
  | "" => ""
  | String a rest => if mem_char a chars then lstrip chars rest else s
  end.

(** [s.rstrip(chars)]: drop every trailing character that occurs in [chars]. *)
Fixpoint rstrip (chars s : string) : string :=
  match s with
  | "" => ""
  | String a rest =>
      match rstrip chars rest with
      | "" => if mem_char a chars then "" else String a ""
      | kept => String a kept
      end
  end.

(** [s.startswith(p)]. *)
Definition startswith (s p : string) : bool := String.prefix p s.

(** [s[n:]] for a non-negative literal [n]. *)
Fixpoint slice_from (n : nat) (s : string) : string :=
  match n, s with
  | O, _ => s
  | S _, "" => ""
  | S k, String _ rest => slice_from k rest
  end.

(** [s.replace(old, new)] where [old] is the one-character string [c]
    (every call in the service replaces ['#']). *)
Fixpoint replace1 (c : ascii) (new s : string) : string :=
  match s with
  | "" => ""
  | String a rest =>
      if decide (a = c) then new +:+ replace1 c new rest
      else String a (replace1 c new rest)
  end.

(** [str.upper] on one ASCII character: ['a'..'z'] move to ['A'..'Z']. *)
Definition upper_ascii (a : ascii) : ascii :=
  let n := N_of_ascii a in
  if ((97 <=? n) && (n <=? 122))%N then ascii_of_N (n - 32) else a.

(** [s.upper()] on ASCII text. A character outside ASCII is left as it
    is, where [str.upper] may change it. *)
Fixpoint upper (s : string) : string :=
  match s with
  | "" => ""
  | String a rest => String (upper_ascii a) (upper rest)
  end.

(** [c in s], as a proposition. *)
Fixpoint occurs (c : ascii) (s : string) : Prop :=
  match s with
  | "" => False
  | String a rest => a = c \/ occurs c rest
  end.

(** The string of [n] copies of [c]. *)
Fixpoint repeat_char (c : ascii) (n : nat) : string :=
  match n with
  | O => ""
  | S k => String c (repeat_char c k)
  end.

(** The last character of [s], if any. *)
Fixpoint last_char (s : string) : option ascii :=
  match s with
  | "" => None
  | String a "" => Some a
  | String _ rest => last_char rest
  end.

End PyStr.

Import PyStr.

(** ** Values *)

(** A parsed JSON body, as [response.json()] returns it. *)
Inductive json : Type :=
| JNull
| JBool (b : bool)
| JNum (n : Z)
| JFloat (literal : string)
| JStr (s : string)
| JArr (items : list json)
| JObj (fields : gmap string json).

(** A query-parameter value of the [params] dict. *)
Inductive param : Type :=
| PInt (n : Z)
| PStr (s : string).

(** ** Exceptions *)

Inductive exc_class : Type :=
| Timeout
| ConnectTimeout
| ReadTimeout
| ConnectionError
| HTTPError
| JSONDecodeError
| RequestException
| ValueError
| AttributeError
| UnboundLocalError.

#[global] Instance exc_class_eq_dec : EqDecision exc_class.
Proof. solve_decision. Defined.

(** A raised exception: its class and [str(e)]. *)
Record exc : Type := Exc { exc_cls : exc_class; exc_msg : string }.

#[global] Instance exc_eq_dec : EqDecision exc.
Proof. solve_decision. Defined.

(** What the service needs to know of the installed [requests]:
    whether the error of [Response.json()] derives from
    [RequestException] (it does from release 2.27 on), and the headers a
    fresh [Session] starts with. *)
Record RequestsLib : Type := {
  json_error_is_request_exception : bool;
  default_headers : gmap string string
}.

(** [issubclass(c, d)] over the classes above. *)
Definition issubclass (lib : RequestsLib) (c d : exc_class) : bool :=
  if decide (c = d) then true else
  match c, d with
  | Timeout, RequestException => true
  | ConnectTimeout, (ConnectionError | Timeout | RequestException) => true
  | ReadTimeout, (Timeout | RequestException) => true
  | ConnectionError, RequestException => true
  | HTTPError, RequestException => true
  | JSONDecodeError, ValueError => true
  | JSONDecodeError, RequestException => json_error_is_request_exception lib
  | _, _ => false
  end.

(** [isinstance(e, d)]. *)
Definition isinstance (lib : RequestsLib) (e : exc) (d : exc_class) : bool :=
  issubclass lib (exc_cls e) d.

(** ** The HTTP layer *)

(** One [session.get] call, as the service places it: the arguments
    handed to [requests] (the URL is the string passed, before
    [requests] prepares it) together with the session's headers. *)
Record Request : Type := {
  req_method : string;
  req_url : string;
  req_params : option (gmap string param);
  req_headers : gmap string string;
  req_timeout : Z
}.

(** A [requests.Response]: [resp_json] is what [.json()] does, the decoded
    body or the message of the decoding error. *)
Record Response : Type := {
  status_code : Z;
  reason : string;
  resp_url : string;
  text : string;
  resp_json : string + json
}.

Inductive get_outcome : Type :=
| GetRaises (e : exc)
| GetReturns (r : Response).

(** The network: answers a call given the calls made before it. *)
Definition Network : Type := list Request -> Request -> get_outcome.

(** ** The client object and the method monad *)

Record Session : Type := { headers : gmap string string }.

Record ClashRoyaleService : Type := {
  api_key : string;
  base_url : string;
  timeout : Z;
  session : Session
}.

Record state : Type := {
  self : ClashRoyaleService;
  calls : list Request
}.

Inductive result (A : Type) : Type :=
| Ok (a : A)
| Raise (e : exc).

Arguments Ok {A} a.
Arguments Raise {A} e.

Definition M (A : Type) : Type := state -> result A * state.

Definition ret {A} (a : A) : M A := fun st => (Ok a, st).

Definition raise {A} (e : exc) : M A := fun st => (Raise e, st).

Definition bind {A B} (m : M A) (k : A -> M B) : M B :=
  fun st =>
    match m st with
    | (Ok a, st') => k a st'
    | (Raise e, st') => (Raise e, st')
    end.

(** Run [m]; hand an exception it raises to [handler]. *)
Definition catch {A} (m : M A) (handler : exc -> M A) : M A :=
  fun st =>
    match m st with
    | (Ok a, st') => (Ok a, st')
    | (Raise e, st') => handler e st'
    end.

Definition get_self : M ClashRoyaleService := fun st => (Ok (self st), st).

Notation "x <~ m ;; k" := (bind m (fun x => k))
  (at level 100, m at next level, right associativity).

(** ** ClashRoyaleService *)

(** The name Python reports for the type of a decoded JSON value. *)
Definition py_type_name (v : json) : string :=
  match v with
  | JNull => "NoneType"
  | JBool _ => "bool"
  | JNum _ => "int"
  | JFloat _ => "float"
  | JStr _ => "str"
  | JArr _ => "list"
  | JObj _ => "dict"
  end.

(** [d.get(key, default)]: defined on dicts only. *)
Definition dict_get (d : json) (key : string) (default : json) : M json :=
  match d with
  | JObj fields => ret (from_option id default (fields !! key))
  | _ => raise (Exc AttributeError
                  ("'" +:+ py_type_name d +:+ "' object has no attribute 'get'"))
  end.

(** [ClashRoyaleService(api_key, base_url, timeout)]: the session's
    default headers are updated with the two the API needs. [timeout] is
    [None] when the caller leaves the argument out. *)
Definition __init__ (lib : RequestsLib) (api_key base_url : string)
    (timeout : option Z) : ClashRoyaleService :=
  {| api_key := api_key;
     base_url := rstrip "/" base_url;
     timeout := from_option id 30 timeout;
     session :=
       {| headers :=
            <["Accept" := "application/json"]>
              (<["Authorization" := "Bearer " +:+ api_key]>
                 (default_headers lib)) |} |}.

(** The call [session.request(method, url, ...)] as a [Request]: the
    arguments as they are passed, and the session's headers, which go
    with every call. *)
Definition prepare_request (s : Session) (method url : string)
    (params : option (gmap string param)) (tmo : Z) : Request :=
  {| req_method := method;
     req_url := url;
     req_params := params;
     req_headers := headers s;
     req_timeout := tmo |}.

Section Client.

Variable lib : RequestsLib.
Variable net : Network.

(** [self.session.get(url, params=params, timeout=timeout)]: the call is
    logged and the network answers it. *)
Definition session_get (url : string) (params : option (gmap string param))
    (tmo : Z) : M Response :=
  fun st =>
    let rq := prepare_request (session (self st)) "GET" url params tmo in
    let st' := {| self := self st; calls := (calls st ++ [rq])%list |} in
    match net (calls st) rq with
    | GetRaises e => (Raise e, st')
    | GetReturns r => (Ok r, st')
    end.

(** [str(e)] of the [HTTPError] that [raise_for_status] builds. *)
Definition http_error_msg (kind : string) (r : Response) : string :=
  pretty (status_code r) +:+ " " +:+ kind +:+ " Error: " +:+ reason r
    +:+ " for url: " +:+ resp_url r.

(** [response.raise_for_status()]: raises for 4xx and 5xx, nothing else. *)
Definition raise_for_status (r : Response) : M unit :=
  if (400 <=? status_code r) && (status_code r <? 500) then
    raise (Exc HTTPError (http_error_msg "Client" r))
  else if (500 <=? status_code r) && (status_code r <? 600) then
    raise (Exc HTTPError (http_error_msg "Server" r))
  else ret tt.

(** [response.json()]. *)
Definition response_json (r : Response) : M json :=
  match resp_json r with
  | inl msg => raise (Exc JSONDecodeError msg)
  | inr body => ret body
  end.

(** The [except] clauses of [_make_request], tried in order on an
    exception of the [try] block. [response] is the local of that name,
    unbound until [session.get] has returned. *)
Definition except_clauses (response : option Response) (e : exc) : M json :=
  if isinstance lib e Timeout then
    raise (Exc RequestException "Request to Clash Royale API timed out")
  else if isinstance lib e HTTPError then
    match response with
    | None =>
        raise (Exc UnboundLocalError
                 "cannot access local variable 'response' where it is not associated with a value")
    | Some response =>
        if decide (status_code response = 404) then
          raise (Exc ValueError
                   "Resource not found. Check the player tag or clan tag.")
        else if decide (status_code response = 403) then
          raise (Exc ValueError "Access forbidden. Check your API key.")
        else if decide (status_code response = 429) then
          raise (Exc ValueError "Rate limit exceeded. Please try again later.")
        else
          raise (Exc ValueError
                   ("API request failed with status "
                      +:+ pretty (status_code response) +:+ ": "
                      +:+ text response))
    end
  else if isinstance lib e RequestException then
    raise (Exc RequestException
             ("Failed to connect to Clash Royale API: " +:+ exc_msg e))
  else raise e.

Definition _make_request (endpoint : string)
    (params : option (gmap string param)) : M json :=
  self <~ get_self ;;
  let url := base_url self +:+ "/" +:+ lstrip "/" endpoint in
  fun st =>
    match session_get url params (timeout self) st with
    | (Raise e, st') => except_clauses None e st'
    | (Ok response, st') =>
        catch (_ <~ raise_for_status response ;; response_json response)
              (except_clauses (Some response)) st'
    end.

Definition get_player_info (player_tag : string) : M json :=
  let player_tag :=
    if startswith player_tag "#" then "%23" +:+ slice_from 1 player_tag
    else "%23" +:+ player_tag in
  let endpoint := "players/" +:+ player_tag in
  _make_request endpoint None.

Definition get_player_battle_log (player_tag : string) : M json :=
  let player_tag :=
    if startswith player_tag "#" then "%23" +:+ slice_from 1 player_tag
    else "%23" +:+ player_tag in
  let endpoint := "players/" +:+ player_tag +:+ "/battlelog" in
  _make_request endpoint None.

Definition get_clan_info (clan_tag : string) : M json :=
  let clean_tag := upper (replace1 "#" "" clan_tag) in
  let encoded_tag := replace1 "#" "%23" clean_tag in
  let endpoint := "clans/" +:+ encoded_tag in
  _make_request endpoint None.

Definition get_clan_members (clan_tag : string) : M json :=
  clan_info <~ get_clan_info clan_tag ;;
  members <~ dict_get clan_info "memberList" (JArr []) ;;
  member_count <~ dict_get clan_info "memberCount" (JNum 0) ;;
  ret (JObj (<["members" := members]> {["memberCount" := member_count]})).

Definition get_clan_war_log (clan_tag : string) : M json :=
  let clean_tag := upper (replace1 "#" "" clan_tag) in
  let encoded_tag := replace1 "#" "%23" clean_tag in
  let endpoint := "clans/" +:+ encoded_tag +:+ "/warlog" in
  _make_request endpoint None.

Definition get_clan_current_war (clan_tag : string) : M json :=
  let clean_tag := upper (replace1 "#" "" clan_tag) in
  let encoded_tag := replace1 "#" "%23" clean_tag in
  let endpoint := "clans/" +:+ encoded_tag +:+ "/currentwar" in
  _make_request endpoint None.

Definition get_cards : M json :=
  let endpoint := "cards" in
  _make_request endpoint None.

Definition get_pol_leaderboard (season : string) : M json :=
  if decide (season = "current") then
    let endpoint := "locations/global/pathoflegend/players" in
    _make_request endpoint None
  else
    let endpoint :=
      "locations/global/pathoflegend/" +:+ season +:+ "/rankings/players" in
    _make_request endpoint None.

Definition get_tournaments (name : string) : M json :=
  let endpoint := "tournaments" in
  let params : gmap string param := {["name" := PStr name]} in
  _make_request endpoint (Some params).

(** [limit] is [None] when the caller leaves the argument out. *)
Definition get_popular_clans (limit : option Z) : M json :=
  let limit := from_option id 200 limit in
  let endpoint := "clans" in
  let params : gmap string param :=
    <["minScore" := PInt 40000]> {["limit" := PInt (Z.min limit 200)]} in
  _make_request endpoint (Some params).

(** A call of any method of the class. *)
Inductive operation : Type :=
| Call_make_request (endpoint : string) (params : option (gmap string param))
| Call_get_player_info (player_tag : string)
| Call_get_player_battle_log (player_tag : string)
| Call_get_clan_info (clan_tag : string)
| Call_get_clan_members (clan_tag : string)
| Call_get_clan_war_log (clan_tag : string)
| Call_get_clan_current_war (clan_tag : string)
| Call_get_cards
| Call_get_pol_leaderboard (season : string)
| Call_get_tournaments (name : string)
| Call_get_popular_clans (limit : option Z).

Definition run (op : operation) : M json :=
  match op with
  | Call_make_request endpoint params => _make_request endpoint params
  | Call_get_player_info t => get_player_info t
  | Call_get_player_battle_log t => get_player_battle_log t
  | Call_get_clan_info t => get_clan_info t
  | Call_get_clan_members t => get_clan_members t
  | Call_get_clan_war_log t => get_clan_war_log t
  | Call_get_clan_current_war t => get_clan_current_war t
  | Call_get_cards => get_cards
  | Call_get_pol_leaderboard season => get_pol_leaderboard season
  | Call_get_tournaments name => get_tournaments name
  | Call_get_popular_clans limit => get_popular_clans limit
  end.

End Client.

(** The call that [_make_request(endpoint, params)] places from [st]. *)
Definition wire_request (st : state) (endpoint : string)
    (params : option (gmap string param)) : Request :=
  prepare_request (session (self st)) "GET"
    (base_url (self st) +:+ "/" +:+ lstrip "/" endpoint) params
    (timeout (self st)).

(** The state [_make_request] leaves: the same client, one more call. *)
Definition after_call (st : state) (endpoint : string)
    (params : option (gmap string param)) : state :=
  {| self := self st;
     calls := (calls st ++ [wire_request st endpoint params])%list |}.

(** [m] leaves the client object as it found it and only adds to the log
    of calls. *)
Definition frames_self {A} (m : M A) : Prop :=
  forall st,
    self (m st).2 = self st /\
    exists sent, calls (m st).2 = (calls st ++ sent)%list.

(** ** The exceptions [_make_request] raises, by cause *)

Definition exc_not_found : exc :=
  Exc ValueError "Resource not found. Check the player tag or clan tag.".

Definition exc_forbidden : exc :=
  Exc ValueError "Access forbidden. Check your API key.".

Definition exc_rate_limited : exc :=
  Exc ValueError "Rate limit exceeded. Please try again later.".

Definition exc_api_failed (status : Z) (body : string) : exc :=
  Exc ValueError
    ("API request failed with status " +:+ pretty status +:+ ": " +:+ body).

Definition exc_timed_out : exc :=
  Exc RequestException "Request to Clash Royale API timed out".

Definition exc_connect_failed (message : string) : exc :=
  Exc RequestException ("Failed to connect to Clash Royale API: " +:+ message).

(** ** Concrete environments *)

Definition requests_2_31 : RequestsLib :=
  {| json_error_is_request_exception := true;
     default_headers :=
       <["User-Agent" := "python-requests/2.31.0"]>
         (<["Accept-Encoding" := "gzip, deflate"]>
            (<["Accept" := "*/*"]> {["Connection" := "keep-alive"]})) |}.

Definition requests_2_25 : RequestsLib :=
  {| json_error_is_request_exception := false;
     default_headers :=
       <["User-Agent" := "python-requests/2.25.1"]>
         (<["Accept-Encoding" := "gzip, deflate"]>
            (<["Accept" := "*/*"]> {["Connection" := "keep-alive"]})) |}.

(** A network that answers every call with the same status and body. *)
Definition net_answers (status : Z) (body : string) (decoded : string + json)
    : Network :=
  fun _ rq =>
    GetReturns {| status_code := status; reason := "";
                  resp_url := req_url rq; text := body;
                  resp_json := decoded |}.

(** A network on which every call fails with [e]. *)
Definition net_fails (e : exc) : Network := fun _ _ => GetRaises e.

(** The client the routes build from [config.py], before any call. *)
Definition fresh (lib : RequestsLib) (credential : string) : state :=
  {| self := __init__ lib credential "https://api.clashroyale.com/v1/" (Some 30);
     calls := [] |}.

Definition example_client (lib : RequestsLib) (credential : string) : state :=
  {| self := __init__ lib credential "https://api.example.com/v1/" (Some 30);
     calls := [] |}.


(** * The Flask layer

    [config.py] and the route modules under [routes/]. A handler is a
    computation in the monad [R]: it adds to the log of [session.get]
    calls and to the application log, and returns a response or raises.
    Every class of exception in the model derives from [Exception], so an
    [except Exception] clause catches whatever reaches it. *)

Module PyText.

(** [str.lower] on one ASCII character. *)
Definition lower_ascii (a : ascii) : ascii :=
  let n := N_of_ascii a in
  if ((65 <=? n) && (n <=? 90))%N then ascii_of_N (n + 32) else a.

(** [s.lower()] on ASCII text. A character outside ASCII is left as it
    is, where [str.lower] may change it. *)
Fixpoint lower (s : string) : string :=
  match s with
  | "" => ""
  | String a rest => String (lower_ascii a) (lower rest)
  end.

(** [s.isascii()]: every character is below 128. On such text [upper]
    and [lower] are [str.upper] and [str.lower]. *)
Fixpoint isascii (s : string) : bool :=
  match s with
  | "" => true
  | String a rest => (N_of_ascii a <? 128)%N && isascii rest
  end.

(** The ASCII characters [str.strip()] removes. *)
Definition whitespace : string :=
  String (ascii_of_nat 9) (String (ascii_of_nat 10) (String (ascii_of_nat 11)
  (String (ascii_of_nat 12) (String (ascii_of_nat 13) (String (ascii_of_nat 28)
  (String (ascii_of_nat 29) (String (ascii_of_nat 30) (String (ascii_of_nat 31)
  " ")))))))).

(** [s.strip()]. *)
Definition strip (s : string) : string := lstrip whitespace (rstrip whitespace s).

(** The first character of [s], if any. *)
Definition first_char (s : string) : option ascii :=
  match s with
  | "" => None
  | String a _ => Some a
  end.

End PyText.

Import PyText.

(** ** Exceptions and the handler monad *)

(** The classes the handlers meet: those of the service and the built-in
    ones raised by the handlers' own data access. *)
Inductive py_class : Type :=
| Lib (c : exc_class)
| KeyError
| IndexError
| TypeError
| FileNotFoundError.

#[global] Instance py_class_eq_dec : EqDecision py_class.
Proof. solve_decision. Defined.

Record py_exc : Type := PyExc { py_cls : py_class; py_msg : string }.

(** [issubclass(c, d)]; the built-in classes added here are related to
    none of the others. *)
Definition py_issubclass (lib : RequestsLib) (c d : py_class) : bool :=
  match c, d with
  | Lib c, Lib d => issubclass lib c d
  | _, _ => bool_decide (c = d)
  end.

Definition py_isinstance (lib : RequestsLib) (e : py_exc) (d : py_class) : bool :=
  py_issubclass lib (py_cls e) d.

(** An exception of the service, as the handler sees it. *)
Definition of_lib (e : exc) : py_exc := PyExc (Lib (exc_cls e)) (exc_msg e).

Record rstate : Type := {
  r_calls : list Request;
  app_log : list string
}.

Inductive rresult (A : Type) : Type :=
| ROk (a : A)
| RRaise (e : py_exc).

Arguments ROk {A} a.
Arguments RRaise {A} e.

Definition R (A : Type) : Type := rstate -> rresult A * rstate.

Definition rret {A} (a : A) : R A := fun rs => (ROk a, rs).

Definition rraise {A} (e : py_exc) : R A := fun rs => (RRaise e, rs).

Definition rbind {A B} (m : R A) (k : A -> R B) : R B :=
  fun rs =>
    match m rs with
    | (ROk a, rs') => k a rs'
    | (RRaise e, rs') => (RRaise e, rs')
    end.

Definition rcatch {A} (m : R A) (handler : py_exc -> R A) : R A :=
  fun rs =>
    match m rs with
    | (ROk a, rs') => (ROk a, rs')
    | (RRaise e, rs') => handler e rs'
    end.

(** [current_app.logger.error(line)]. *)
Definition logger_error (line : string) : R unit :=
  fun rs => (ROk tt, {| r_calls := r_calls rs;
                        app_log := (app_log rs ++ [line])%list |}).

(** [service.method(...)]: the method runs on the client object against
    the calls made so far; the object it leaves is handed back. *)
Definition call {A} (service : ClashRoyaleService) (method : M A)
    : R (ClashRoyaleService * A) :=
  fun rs =>
    match method {| self := service; calls := r_calls rs |} with
    | (Ok a, st) =>
        (ROk (self st, a), {| r_calls := calls st; app_log := app_log rs |})
    | (Raise e, st) =>
        (RRaise (of_lib e), {| r_calls := calls st; app_log := app_log rs |})
    end.

(** ** Operations on decoded JSON values *)

(** [bool(v)]; whether a float is non-zero is decided by [float_truth]
    on its literal. *)
Definition py_truthy (float_truth : string -> bool) (v : json) : bool :=
  match v with
  | JNull => false
  | JBool b => b
  | JNum n => negb (n =? 0)
  | JFloat literal => float_truth literal
  | JStr s => match s with "" => false | _ => true end
  | JArr items => match items with [] => false | _ => true end
  | JObj fields => negb (Nat.eqb (size fields) 0)
  end.

(** [isinstance(v, list)]. *)
Definition is_list (v : json) : bool :=
  match v with
  | JArr _ => true
  | _ => false
  end.

(** [len(v)]. *)
Definition py_len (v : json) : R Z :=
  match v with
  | JStr s => rret (Z.of_nat (String.length s))
  | JArr items => rret (Z.of_nat (length items))
  | JObj fields => rret (Z.of_nat (size fields))
  | _ => rraise (PyExc TypeError
                   ("object of type '" +:+ py_type_name v +:+ "' has no len()"))
  end.

(** [v[0]]; the keys of a decoded object are strings, never [0]. *)
Definition py_first (v : json) : R json :=
  match v with
  | JArr (x :: _) => rret x
  | JArr [] => rraise (PyExc IndexError "list index out of range")
  | JStr (String a _) => rret (JStr (String a ""))
  | JStr "" => rraise (PyExc IndexError "string index out of range")
  | JObj _ => rraise (PyExc KeyError "0")
  | _ => rraise (PyExc TypeError
                   ("'" +:+ py_type_name v +:+ "' object is not subscriptable"))
  end.

(** [v.get(key, default)]. *)
Definition py_get (v : json) (key : string) (default : json) : R json :=
  match v with
  | JObj fields => rret (from_option id default (fields !! key))
  | _ => rraise (PyExc (Lib AttributeError)
                   ("'" +:+ py_type_name v +:+ "' object has no attribute 'get'"))
  end.

(** [v.lower()]. *)
Definition py_lower (v : json) : R string :=
  match v with
  | JStr s => rret (lower s)
  | _ => rraise (PyExc (Lib AttributeError)
                   ("'" +:+ py_type_name v +:+ "' object has no attribute 'lower'"))
  end.

(** The characters of [s] as one-character strings. *)
Fixpoint chars (s : string) : list json :=
  match s with
  | "" => []
  | String a rest => JStr (String a "") :: chars rest
  end.

(** The values [for x in v] runs through. *)
Definition py_iter (v : json) : R (list json) :=
  match v with
  | JArr items => rret items
  | JStr s => rret (chars s)
  | JObj fields => rret (JStr <$> (map_to_list fields).*1)
  | _ => rraise (PyExc TypeError
                   ("'" +:+ py_type_name v +:+ "' object is not iterable"))
  end.

(** ** Configuration *)

(** The entries of [current_app.config] that the routes read; an entry
    is [None] when the key is absent. *)
Record AppConfig : Type := {
  CLASH_ROYALE_API_KEY : option string;
  CLASH_ROYALE_API_BASE_URL : option string;
  API_REQUEST_TIMEOUT : option Z
}.

(** [current_app.config[key]]. *)
Definition config_item {A} (key : string) (entry : option A) : R A :=
  match entry with
  | Some v => rret v
  | None => rraise (PyExc KeyError ("'" +:+ key +:+ "'"))
  end.

Module Config.

Definition CLASH_ROYALE_API_BASE_URL : string := "https://api.clashroyale.com/v1/".

Definition API_REQUEST_TIMEOUT : Z := 30.

Definition placeholder : string := "YOUR_CLASH_ROYALE_API_KEY_HERE".

(** [get_api_key()]: [file] is what reading [api_key.txt] returns, [None]
    when the file does not exist; [path] is [API_KEY_FILE]. *)
Definition get_api_key (path : string) (file : option string) : rresult string :=
  match file with
  | Some content =>
      let api_key := strip content in
      if bool_decide (api_key = "") || bool_decide (api_key = placeholder) then
        RRaise (PyExc (Lib ValueError)
          ("Please replace 'YOUR_CLASH_ROYALE_API_KEY_HERE' in api_key.txt "
             +:+ "with your actual Clash Royale API key. "
             +:+ "Get your key from: https://developer.clashroyale.com/"))
      else ROk api_key
  | None =>
      RRaise (PyExc FileNotFoundError
        ("API key file not found at " +:+ path +:+ ". "
           +:+ "Please create api_key.txt and add your Clash Royale API key."))
  end.

End Config.

(** The entries of the [Config] class, given the key it read. *)
Definition loaded_config (api_key : string) : AppConfig :=
  {| CLASH_ROYALE_API_KEY := Some api_key;
     CLASH_ROYALE_API_BASE_URL := Some Config.CLASH_ROYALE_API_BASE_URL;
     API_REQUEST_TIMEOUT := Some Config.API_REQUEST_TIMEOUT |}.

(** ** Responses *)

(** What a handler returns: the JSON body and the HTTP status. *)
Record HttpResponse : Type := {
  http_body : json;
  http_status : Z
}.

(** [jsonify({'success': True, 'data': data}), 200]. *)
Definition success_response (data : json) : HttpResponse :=
  {| http_body := JObj (<["success" := JBool true]> {["data" := data]});
     http_status := 200 |}.

(** [jsonify({'success': False, 'error': message}), status]. *)
Definition error_response (message : string) (status : Z) : HttpResponse :=
  {| http_body :=
       JObj (<["success" := JBool false]> {["error" := JStr message]});
     http_status := status |}.

(** [get_clash_royale_service()], the helper each route module defines. *)
Definition get_clash_royale_service (lib : RequestsLib) (cfg : AppConfig)
    : R ClashRoyaleService :=
  fun rs =>
    rbind (config_item "CLASH_ROYALE_API_KEY" (CLASH_ROYALE_API_KEY cfg))
      (fun api_key =>
    rbind (config_item "CLASH_ROYALE_API_BASE_URL"
             (CLASH_ROYALE_API_BASE_URL cfg))
      (fun base_url =>
    let timeout := from_option id 30 (API_REQUEST_TIMEOUT cfg) in
    rret (__init__ lib api_key base_url (Some timeout)))) rs.

Notation "x <- m ;; k" := (rbind m (fun x => k))
  (at level 100, m at next level, right associativity).

(** The methods of the service, for the route modules that define
    handlers of the same names. *)
Module Service.
Abbreviation get_player_info := get_player_info.
Abbreviation get_player_battle_log := get_player_battle_log.
Abbreviation get_clan_info := get_clan_info.
Abbreviation get_clan_members := get_clan_members.
Abbreviation get_clan_war_log := get_clan_war_log.
Abbreviation get_clan_current_war := get_clan_current_war.
Abbreviation get_cards := get_cards.
Abbreviation get_pol_leaderboard := get_pol_leaderboard.
Abbreviation get_tournaments := get_tournaments.
End Service.

(** ** routes/player_routes.py *)

Module PlayerRoutes.

Definition get_player (lib : RequestsLib) (net : Network) (cfg : AppConfig)
    (player_tag : string) : R HttpResponse :=
  rcatch
    (service <- get_clash_royale_service lib cfg ;;
     answer <-
        call service (Service.get_player_info lib net player_tag) ;;
     let '(service, player_data) := answer in
     rret (success_response player_data))
    (fun e =>
       if py_isinstance lib e (Lib ValueError) then
         rret (error_response (py_msg e) 400)
       else
         _ <- logger_error
                ("Error fetching player " +:+ player_tag +:+ ": " +:+ py_msg e) ;;
         rret (error_response
                 "An unexpected error occurred while fetching player data" 500)).

(** The handler also reads the query parameter [limit] and does not use
    it. *)
Definition get_player_battle_log (lib : RequestsLib) (net : Network)
    (cfg : AppConfig) (player_tag : string) : R HttpResponse :=
  rcatch
    (service <- get_clash_royale_service lib cfg ;;
     answer <-
        call service (Service.get_player_battle_log lib net player_tag) ;;
     let '(service, battle_log) := answer in
     rret (success_response battle_log))
    (fun e =>
       if py_isinstance lib e (Lib ValueError) then
         rret (error_response (py_msg e) 400)
       else
         _ <- logger_error
                ("Error fetching battle log for " +:+ player_tag +:+ ": "
                   +:+ py_msg e) ;;
         rret (error_response
                 "An unexpected error occurred while fetching battle log" 500)).

(** The body of the [try] block of [get_current_deck]. *)
Definition current_deck_body (lib : RequestsLib) (net : Network)
    (float_truth : string -> bool) (cfg : AppConfig) (player_tag : string)
    : R HttpResponse :=
  service <- get_clash_royale_service lib cfg ;;
  answer <-
     call service (Service.get_player_battle_log lib net player_tag) ;;
  let '(service, battle_log) := answer in
  no_battles <-
    (if negb (py_truthy float_truth battle_log) then rret true
     else if negb (is_list battle_log) then rret true
     else n <- py_len battle_log ;; rret (n =? 0)) ;;
  if no_battles : bool then
    rret {| http_body :=
              JObj (<["success" := JBool true]>
                      (<["data" := JArr []]>
                         {["message" :=
                             JStr "No recent battles found for this player"]}));
            http_status := 200 |}
  else
    most_recent_battle <- py_first battle_log ;;
    team <- py_get most_recent_battle "team" (JArr []) ;;
    no_team <-
      (if negb (py_truthy float_truth team) then rret true
       else n <- py_len team ;; rret (n =? 0)) ;;
    if no_team : bool then
      rret (error_response "No team data found in the most recent battle" 404)
    else
      player_data <- py_first team ;;
      deck <- py_get player_data "cards" (JArr []) ;;
      battle_time <- py_get most_recent_battle "battleTime" JNull ;;
      battle_type <- py_get most_recent_battle "type" JNull ;;
      game_mode <- py_get most_recent_battle "gameMode" (JObj ∅) ;;
      game_mode_name <- py_get game_mode "name" JNull ;;
      rret {| http_body :=
                JObj (<["success" := JBool true]>
                        (<["data" := deck]>
                           (<["battleTime" := battle_time]>
                              (<["battleType" := battle_type]>
                                 {["gameMode" := game_mode_name]}))));
              http_status := 200 |}.

Definition get_current_deck (lib : RequestsLib) (net : Network)
    (float_truth : string -> bool) (cfg : AppConfig) (player_tag : string)
    : R HttpResponse :=
  rcatch (current_deck_body lib net float_truth cfg player_tag)
    (fun e =>
       if py_isinstance lib e (Lib ValueError) then
         rret (error_response (py_msg e) 400)
       else if py_isinstance lib e KeyError || py_isinstance lib e IndexError
               || py_isinstance lib e TypeError then
         _ <- logger_error
                ("Error parsing battle log for " +:+ player_tag +:+ ": "
                   +:+ py_msg e) ;;
         rret (error_response
                 "Failed to extract deck from battle log. Battle data structure may be invalid."
                 500)
       else
         _ <- logger_error
                ("Error fetching current deck for " +:+ player_tag +:+ ": "
                   +:+ py_msg e) ;;
         rret (error_response
                 "An unexpected error occurred while fetching current deck" 500)).

Definition get_player_stats (lib : RequestsLib) (net : Network)
    (cfg : AppConfig) (player_tag : string) : R HttpResponse :=
  rcatch
    (service <- get_clash_royale_service lib cfg ;;
     answer <-
        call service (Service.get_player_info lib net player_tag) ;;
     let '(service, player_info) := answer in
     answer <-
        call service (Service.get_player_battle_log lib net player_tag) ;;
     let '(service, battle_log) := answer in
     tag <- py_get player_info "tag" JNull ;;
     name <- py_get player_info "name" JNull ;;
     trophies <- py_get player_info "trophies" JNull ;;
     best_trophies <- py_get player_info "bestTrophies" JNull ;;
     battle_count <- py_get player_info "battleCount" (JNum 0) ;;
     wins <- py_get player_info "wins" (JNum 0) ;;
     losses <- py_get player_info "losses" (JNum 0) ;;
     let stats :=
       JObj (<["player_tag" := tag]>
               (<["player_name" := name]>
                  (<["current_trophies" := trophies]>
                     (<["best_trophies" := best_trophies]>
                        (<["total_battles" := battle_count]>
                           (<["total_wins" := wins]>
                              {["total_losses" := losses]})))))) in
     rret (success_response stats))
    (fun e =>
       if py_isinstance lib e (Lib ValueError) then
         rret (error_response (py_msg e) 400)
       else
         _ <- logger_error
                ("Error fetching stats for " +:+ player_tag +:+ ": " +:+ py_msg e) ;;
         rret (error_response
                 "An unexpected error occurred while fetching player stats" 500)).

End PlayerRoutes.

(** ** routes/clan_routes.py *)

Module ClanRoutes.

Definition get_clan (lib : RequestsLib) (net : Network) (cfg : AppConfig)
    (clan_tag : string) : R HttpResponse :=
  rcatch
    (service <- get_clash_royale_service lib cfg ;;
     answer <-
        call service (Service.get_clan_info lib net clan_tag) ;;
     let '(service, clan_data) := answer in
     rret (success_response clan_data))
    (fun e =>
       if py_isinstance lib e (Lib ValueError) then
         rret (error_response (py_msg e) 400)
       else
         _ <- logger_error
                ("Error fetching clan " +:+ clan_tag +:+ ": " +:+ py_msg e) ;;
         rret (error_response
                 "An unexpected error occurred while fetching clan data" 500)).

(** The handler also reads the query parameters [sort_by] and [order]
    and does not use them. *)
Definition get_clan_members (lib : RequestsLib) (net : Network)
    (cfg : AppConfig) (clan_tag : string) : R HttpResponse :=
  rcatch
    (service <- get_clash_royale_service lib cfg ;;
     answer <-
        call service (Service.get_clan_members lib net clan_tag) ;;
     let '(service, members_data) := answer in
     rret (success_response members_data))
    (fun e =>
       if py_isinstance lib e (Lib ValueError) then
         rret (error_response (py_msg e) 400)
       else
         _ <- logger_error
                ("Error fetching clan members for " +:+ clan_tag +:+ ": "
                   +:+ py_msg e) ;;
         rret (error_response
                 "An unexpected error occurred while fetching clan members" 500)).

Definition get_clan_war_log (lib : RequestsLib) (net : Network)
    (cfg : AppConfig) (clan_tag : string) : R HttpResponse :=
  rcatch
    (service <- get_clash_royale_service lib cfg ;;
     answer <-
        call service (Service.get_clan_war_log lib net clan_tag) ;;
     let '(service, war_log) := answer in
     rret (success_response war_log))
    (fun e =>
       if py_isinstance lib e (Lib ValueError) then
         rret (error_response (py_msg e) 400)
       else
         _ <- logger_error
                ("Error fetching war log for " +:+ clan_tag +:+ ": " +:+ py_msg e) ;;
         rret (error_response
                 "An unexpected error occurred while fetching war log" 500)).

Definition get_clan_current_war (lib : RequestsLib) (net : Network)
    (cfg : AppConfig) (clan_tag : string) : R HttpResponse :=
  rcatch
    (service <- get_clash_royale_service lib cfg ;;
     answer <-
        call service (Service.get_clan_current_war lib net clan_tag) ;;
     let '(service, current_war) := answer in
     rret (success_response current_war))
    (fun e =>
       if py_isinstance lib e (Lib ValueError) then
         rret (error_response (py_msg e) 400)
       else
         _ <- logger_error
                ("Error fetching current war for " +:+ clan_tag +:+ ": "
                   +:+ py_msg e) ;;
         rret (error_response
                 "An unexpected error occurred while fetching current war" 500)).

End ClanRoutes.

(** ** routes/card_routes.py *)

Module CardRoutes.

Definition get_all_cards (lib : RequestsLib) (net : Network)
    (cfg : AppConfig) : R HttpResponse :=
  rcatch
    (service <- get_clash_royale_service lib cfg ;;
     answer <- call service (Service.get_cards lib net) ;;
     let '(service, cards_data) := answer in
     rret (success_response cards_data))
    (fun e =>
       _ <- logger_error ("Error fetching cards: " +:+ py_msg e) ;;
       rret (error_response
               "An unexpected error occurred while fetching cards" 500)).

(** The list comprehension of [get_cards_by_rarity]. *)
Fixpoint filtered_cards (rarity : string) (all_cards : list json)
    : R (list json) :=
  match all_cards with
  | [] => rret []
  | card :: rest =>
      card_rarity <- py_get card "rarity" (JStr "") ;;
      lowered <- py_lower card_rarity ;;
      kept <- filtered_cards rarity rest ;;
      rret (if bool_decide (lowered = lower rarity) then card :: kept else kept)
  end.

Definition get_cards_by_rarity (lib : RequestsLib) (net : Network)
    (cfg : AppConfig) (rarity : string) : R HttpResponse :=
  rcatch
    (service <- get_clash_royale_service lib cfg ;;
     answer <- call service (Service.get_cards lib net) ;;
     let '(service, cards_data) := answer in
     items <- py_get cards_data "items" (JArr []) ;;
     all_cards <- py_iter items ;;
     filtered <- filtered_cards rarity all_cards ;;
     rret (success_response
             (JObj (<["items" := JArr filtered]>
                      {["count" := JNum (Z.of_nat (length filtered))]}))))
    (fun e =>
       _ <- logger_error
              ("Error fetching cards by rarity " +:+ rarity +:+ ": " +:+ py_msg e) ;;
       rret (error_response
               "An unexpected error occurred while fetching cards" 500)).

(** The [for] loop of [get_card_info]: [searched_card] is the local of
    that name, unbound until a card matches. *)
Fixpoint search_card (name : string) (all_cards : list json)
    (searched_card : option json) : R (option json) :=
  match all_cards with
  | [] => rret searched_card
  | card :: rest =>
      card_name <- py_get card "name" (JStr "") ;;
      lowered <- py_lower card_name ;;
      search_card name rest
        (if bool_decide (lowered = lower name) then Some card else searched_card)
  end.

(** [{v}]: a set display hashes its element. *)
Definition set_display (v : json) : R unit :=
  match v with
  | JArr _ | JObj _ =>
      rraise (PyExc TypeError ("unhashable type: '" +:+ py_type_name v +:+ "'"))
  | _ => rret tt
  end.

(** [jsonify] of a body that holds a set. *)
Definition jsonify_set : R HttpResponse :=
  rraise (PyExc TypeError "Object of type set is not JSON serializable").

Definition get_card_info (lib : RequestsLib) (net : Network)
    (cfg : AppConfig) (name : string) : R HttpResponse :=
  rcatch
    (service <- get_clash_royale_service lib cfg ;;
     answer <- call service (Service.get_cards lib net) ;;
     let '(service, cards_data) := answer in
     items <- py_get cards_data "items" (JArr []) ;;
     all_cards <- py_iter items ;;
     searched_card <- search_card name all_cards None ;;
     match searched_card with
     | None =>
         rraise (PyExc (Lib UnboundLocalError)
                   "cannot access local variable 'searched_card' where it is not associated with a value")
     | Some card => _ <- set_display card ;; jsonify_set
     end)
    (fun e =>
       _ <- logger_error
              ("Error fetching card info by name " +:+ name +:+ ": " +:+ py_msg e) ;;
       rret (error_response
               "An unexpected error occurred while fetching card info" 500)).

End CardRoutes.

(** ** routes/tournament_routes.py *)

Module TournamentRoutes.

(** [args] is [request.args]. *)
Definition search_tournaments (lib : RequestsLib) (net : Network)
    (cfg : AppConfig) (args : gmap string string) : R HttpResponse :=
  rcatch
    (match args !! "name" with
     | None | Some "" =>
         rret (error_response
                 "Tournament name is required. Use ?name=<tournament_name>" 400)
     | Some name =>
         service <- get_clash_royale_service lib cfg ;;
         answer <-
            call service (Service.get_tournaments lib net name) ;;
     let '(service, tournaments_data) := answer in
         rret (success_response tournaments_data)
     end)
    (fun e =>
       _ <- logger_error ("Error searching tournaments: " +:+ py_msg e) ;;
       rret (error_response
               "An unexpected error occurred while searching tournaments" 500)).

End TournamentRoutes.

(** ** routes/leaderboard_routes.py *)

Module LeaderboardRoutes.

Definition get_pol_leaderboard (lib : RequestsLib) (net : Network)
    (cfg : AppConfig) (season : string) : R HttpResponse :=
  rcatch
    (service <- get_clash_royale_service lib cfg ;;
     answer <-
        call service (Service.get_pol_leaderboard lib net season) ;;
     let '(service, pol_leaderboard) := answer in
     rret (success_response pol_leaderboard))
    (fun e =>
       _ <- logger_error ("Error fetching cards: " +:+ py_msg e) ;;
       rret (error_response
               "An unexpected error occurred while fetching cards" 500)).

End LeaderboardRoutes.

(** ** The handlers together *)

(** A request to one of the handlers, with what Flask passes it. *)
Inductive route : Type :=
| Players_get_player (player_tag : string)
| Players_get_player_battle_log (player_tag : string)
| Players_get_current_deck (player_tag : string)
| Players_get_player_stats (player_tag : string)
| Clans_get_clan (clan_tag : string)
| Clans_get_clan_members (clan_tag : string)
| Clans_get_clan_war_log (clan_tag : string)
| Clans_get_clan_current_war (clan_tag : string)
| Cards_get_all_cards
| Cards_get_cards_by_rarity (rarity : string)
| Cards_get_card_info (name : string)
| Tournaments_search_tournaments (args : gmap string string)
| Leaderboards_get_pol_leaderboard (season : string).

Definition handle (lib : RequestsLib) (net : Network)
    (float_truth : string -> bool) (cfg : AppConfig) (rt : route)
    : R HttpResponse :=
  match rt with
  | Players_get_player t => PlayerRoutes.get_player lib net cfg t
  | Players_get_player_battle_log t =>
      PlayerRoutes.get_player_battle_log lib net cfg t
  | Players_get_current_deck t =>
      PlayerRoutes.get_current_deck lib net float_truth cfg t
  | Players_get_player_stats t => PlayerRoutes.get_player_stats lib net cfg t
  | Clans_get_clan t => ClanRoutes.get_clan lib net cfg t
  | Clans_get_clan_members t => ClanRoutes.get_clan_members lib net cfg t
  | Clans_get_clan_war_log t => ClanRoutes.get_clan_war_log lib net cfg t
  | Clans_get_clan_current_war t =>
      ClanRoutes.get_clan_current_war lib net cfg t
  | Cards_get_all_cards => CardRoutes.get_all_cards lib net cfg
  | Cards_get_cards_by_rarity r => CardRoutes.get_cards_by_rarity lib net cfg r
  | Cards_get_card_info n => CardRoutes.get_card_info lib net cfg n
  | Tournaments_search_tournaments args =>
      TournamentRoutes.search_tournaments lib net cfg args
  | Leaderboards_get_pol_leaderboard s =>
      LeaderboardRoutes.get_pol_leaderboard lib net cfg s
  end.

(** Whether the handler has an [except ValueError] clause answering 400. *)
Definition reports_value_errors (rt : route) : bool :=
  match rt with
  | Players_get_player _ | Players_get_player_battle_log _
  | Players_get_current_deck _ | Players_get_player_stats _
  | Clans_get_clan _ | Clans_get_clan_members _
  | Clans_get_clan_war_log _ | Clans_get_clan_current_war _ => true
  | _ => false
  end.

(** The first call a handler makes on the service, when it makes one. *)
Definition first_call (rt : route) : option operation :=
  match rt with
  | Players_get_player t => Some (Call_get_player_info t)
  | Players_get_player_battle_log t => Some (Call_get_player_battle_log t)
  | Players_get_current_deck t => Some (Call_get_player_battle_log t)
  | Players_get_player_stats t => Some (Call_get_player_info t)
  | Clans_get_clan t => Some (Call_get_clan_info t)
  | Clans_get_clan_members t => Some (Call_get_clan_members t)
  | Clans_get_clan_war_log t => Some (Call_get_clan_war_log t)
  | Clans_get_clan_current_war t => Some (Call_get_clan_current_war t)
  | Cards_get_all_cards => Some Call_get_cards
  | Cards_get_cards_by_rarity _ => Some Call_get_cards
  | Cards_get_card_info _ => Some Call_get_cards
  | Tournaments_search_tournaments args =>
      match args !! "name" with
      | None | Some "" => None
      | Some name => Some (Call_get_tournaments name)
      end
  | Leaderboards_get_pol_leaderboard s => Some (Call_get_pol_leaderboard s)
  end.

(** A handler's state before it has done anything. *)
Definition idle : rstate := {| r_calls := []; app_log := [] |}.

(** Whether the handler returns the service's answer as it is. *)
Definition passes_through (rt : route) : bool :=
  match rt with
  | Players_get_player _ | Players_get_player_battle_log _
  | Clans_get_clan _ | Clans_get_clan_members _
  | Clans_get_clan_war_log _ | Clans_get_clan_current_war _
  | Cards_get_all_cards | Tournaments_search_tournaments _
  | Leaderboards_get_pol_leaderboard _ => true
  | _ => false
  end.

(** The configuration with the two required entries present. *)
Definition configured (credential base : string) (tmo : option Z) : AppConfig :=
  {| CLASH_ROYALE_API_KEY := Some credential;
     CLASH_ROYALE_API_BASE_URL := Some base;
     API_REQUEST_TIMEOUT := tmo |}.

(** The state in which the service runs for a handler started in [rs]
    under [configured credential base tmo]. *)
Definition service_state (lib : RequestsLib) (credential base : string)
    (tmo : option Z) (rs : rstate) : state :=
  {| self := __init__ lib credential base (Some (from_option id 30 tmo));
     calls := r_calls rs |}.

(** The handler's state once the service has run to [st]. *)
Definition after_service (rs : rstate) (st : state) : rstate :=
  {| r_calls := calls st; app_log := app_log rs |}.

(** A response as the handlers build them: one of four statuses, and a
    [success] field that is true exactly for 200. *)
Definition well_formed (resp : HttpResponse) : Prop :=
  http_status resp ∈ [200; 400; 404; 500] /\
  exists fields,
    http_body resp = JObj fields /\
    fields !! "success" = Some (JBool (bool_decide (http_status resp = 200))).

(** [m] does not touch the log of calls. *)
Definition keeps_calls {A} (m : R A) : Prop :=
  forall rs, r_calls (m rs).2 = r_calls rs.

(** [m] does not touch the state at all. *)
Definition stateless {A} (m : R A) : Prop := forall rs, (m rs).2 = rs.

(** A card the rarity filter can read: an object whose [rarity], when
    present, is a string. *)
Definition has_rarity_text (card : json) : Prop :=
  exists fields s,
    card = JObj fields /\ default (JStr "") (fields !! "rarity") = JStr s.


(** [m] returns a well-formed response whenever it returns. *)
Definition answers (m : R HttpResponse) : Prop :=
  forall rs,
    match (m rs).1 with
    | ROk resp => well_formed resp
    | RRaise _ => True
    end.

(** [m] always returns, and a well-formed response. *)
Definition always_answers (m : R HttpResponse) : Prop :=
  forall rs, exists resp, (m rs).1 = ROk resp /\ well_formed resp.

(** [m] only adds to the log of calls. *)
Definition calls_grow {A} (m : R A) : Prop :=
  forall rs, exists more, r_calls (m rs).2 = (r_calls rs ++ more)%list.

(** [m] raises whatever the state. *)
Definition never_returns {A} (m : R A) : Prop :=
  forall rs, exists e, (m rs).1 = RRaise e.

(** A call as a client built from [configured credential base tmo]
    places it. *)
Definition configured_call (credential base : string) (tmo : option Z)
    (rq : Request) : Prop :=
  req_method rq = "GET" /\
  req_headers rq !! "Authorization" = Some ("Bearer " +:+ credential) /\
  req_timeout rq = from_option id 30 tmo /\
  exists path, req_url rq = rstrip "/" base +:+ "/" +:+ path.

(** [m] only adds calls that satisfy [P] to the log. *)
Definition places (P : Request -> Prop) {A} (m : R A) : Prop :=
  forall rs,
    exists more, r_calls (m rs).2 = (r_calls rs ++ more)%list /\ Forall P more.

(** The method [m], run on the client [service], hands the client back
    and only adds calls that satisfy [P]. *)
Definition method_places (P : Request -> Prop) (service : ClashRoyaleService)
    {A} (m : M A) : Prop :=
  forall st,
    self st = service ->
    self (m st).2 = service /\
    exists sent, calls (m st).2 = (calls st ++ sent)%list /\ Forall P sent.

(** ** Concrete requests to the handlers *)

(** The configuration of [config.py] with a key and no timeout entry. *)
Definition demo_config : AppConfig :=
  configured "key" Config.CLASH_ROYALE_API_BASE_URL None.

(** The state in which the service runs under [demo_config] for a
    handler started idle. *)
Definition demo_state (lib : RequestsLib) : state :=
  service_state lib "key" Config.CLASH_ROYALE_API_BASE_URL None idle.

(** The answer of [net_answers] to a call at [url]. *)
Definition demo_response (status : Z) (body : string) (decoded : string + json)
    (url : string) : Response :=
  {| status_code := status; reason := ""; resp_url := url; text := body;
     resp_json := decoded |}.

(** Floats are taken as non-zero. *)
Definition demo_float_truth : string -> bool := fun _ => true.

(** A battle log with one battle, one player and one card. *)
Definition demo_card : json :=
  JObj (<["name" := JStr "Knight"]> {["rarity" := JStr "Common"]}).

Definition demo_player : gmap string json := {["cards" := JArr [demo_card]]}.

Definition demo_battle : gmap string json :=
  <["team" := JArr [JObj demo_player]]> {["type" := JStr "PvP"]}.

Definition demo_battle_log : json := JArr [JObj demo_battle].

(** A card list with two rarities. *)
Definition demo_legendary : json :=
  JObj (<["name" := JStr "Miner"]> {["rarity" := JStr "Legendary"]}).

Definition demo_cards : gmap string json :=
  {["items" := JArr [demo_card; demo_legendary]]}.

(** A player with a name and one count. *)
Definition demo_info : gmap string json :=
  <["name" := JStr "Ann"]> {["wins" := JNum 7]}.

(** * Facts *)

(** ** Strings *)

Section StringFacts.

Implicit Types (s t chars : string) (a c : ascii).

Lemma app_String a s t : String a s +:+ t = String a (s +:+ t).
Proof. reflexivity. Qed.

Lemma app_empty_l s : "" +:+ s = s.
Proof. reflexivity. Qed.

Lemma app_assoc_str s t u : (s +:+ t) +:+ u = s +:+ (t +:+ u).
Proof. induction s as [|a s IH]; [done|]. by rewrite !app_String, IH. Qed.

Lemma app_length_str s t :
  String.length (s +:+ t) = (String.length s + String.length t)%nat.
Proof. induction s as [|a s IH]; [done|]. rewrite app_String. simpl. lia. Qed.

(** No string is its own proper extension on the left. *)
Lemma app_neq_self s t : s <> "" -> s +:+ t <> t.
Proof.
  intros Hs Heq. apply (f_equal String.length) in Heq.
  rewrite app_length_str in Heq. destruct s; [done|]. simpl in Heq. lia.
Qed.

Lemma occurs_app c s t : occurs c (s +:+ t) <-> occurs c s \/ occurs c t.
Proof.
  induction s as [|a s IH]; [simpl; tauto|].
  rewrite app_String. simpl. tauto.
Qed.

(** Deleting every [c] leaves no [c]. *)
Lemma replace1_delete_no_occurs c s : ~ occurs c (replace1 c "" s).
Proof.
  induction s as [|a s IH]; simpl; [tauto|].
  destruct (decide (a = c)) as [->|Hne]; [by rewrite app_empty_l|].
  simpl. tauto.
Qed.

(** Replacing a character that does not occur changes nothing. *)
Lemma replace1_absent c new s : ~ occurs c s -> replace1 c new s = s.
Proof.
  induction s as [|a s IH]; simpl; [done|]. intros Hno.
  destruct (decide (a = c)) as [->|Hne]; [tauto|].
  f_equal. apply IH. tauto.
Qed.

Lemma upper_ascii_hash a : upper_ascii a = "#"%char -> a = "#"%char.
Proof. destruct a as [[] [] [] [] [] [] [] []]; vm_compute; congruence. Qed.

Lemma upper_no_hash s : ~ occurs "#" s -> ~ occurs "#" (upper s).
Proof.
  induction s as [|a s IH]; simpl; [done|].
  intros Hno [Ha|Hs]; [apply upper_ascii_hash in Ha|]; tauto.
Qed.

(** The tag the clan methods compute carries no ['#'], so the second
    [replace] of those methods finds nothing to encode. *)
Lemma clan_tag_encoding_is_identity t :
  replace1 "#" "%23" (upper (replace1 "#" "" t)) = upper (replace1 "#" "" t).
Proof. apply replace1_absent, upper_no_hash, replace1_delete_no_occurs. Qed.

Lemma upper_length s : String.length (upper s) = String.length s.
Proof. induction s as [|a s IH]; simpl; congruence. Qed.

Lemma startswith_String s a c :
  startswith (String a s) (String c "") = bool_decide (a = c).
Proof.
  unfold startswith. simpl.
  destruct (ascii_dec c a) as [->|Hne].
  - destruct s; by rewrite bool_decide_eq_true_2.
  - by rewrite bool_decide_eq_false_2.
Qed.

Lemma startswith_app_char c s : startswith (String c "" +:+ s) (String c "") = true.
Proof. rewrite app_String, startswith_String. by apply bool_decide_eq_true_2. Qed.

(** [lstrip] removes a run of the stripped character and nothing else. *)
Lemma lstrip_decompose c s :
  exists n, s = repeat_char c n +:+ lstrip (String c "") s.
Proof.
  induction s as [|a s [n IH]]; [by exists 0%nat|]. simpl.
  destruct (decide (a = c)) as [->|Hne].
  - exists (S n). simpl. by rewrite app_String, <- IH.
  - by exists 0%nat.
Qed.

Lemma lstrip_no_lead c s : startswith (lstrip (String c "") s) (String c "") = false.
Proof.
  induction s as [|a s IH]; [done|]. simpl.
  destruct (decide (a = c)) as [->|Hne]; [done|].
  rewrite startswith_String. by apply bool_decide_eq_false_2.
Qed.

(** An endpoint that does not begin with the stripped character is kept. *)
Lemma lstrip_id c a s : a <> c -> lstrip (String c "") (String a s) = String a s.
Proof. intros Hne. simpl. by destruct (decide (a = c)). Qed.

Lemma rstrip_empty_iff c s :
  rstrip (String c "") s = "" -> s = repeat_char c (String.length s).
Proof.
  induction s as [|a s IH]; [done|]. simpl.
  destruct (rstrip (String c "") s) eqn:Hr; [|done].
  destruct (decide (a = c)) as [->|Hne]; [|done].
  intros _. f_equal. by apply IH.
Qed.

(** [rstrip] removes a run of the stripped character and nothing else. *)
Lemma rstrip_decompose c s :
  exists n, s = rstrip (String c "") s +:+ repeat_char c n.
Proof.
  induction s as [|a s [n IH]]; [by exists 0%nat|]. simpl.
  destruct (rstrip (String c "") s) as [|b kept] eqn:Hr.
  - apply rstrip_empty_iff in Hr.
    destruct (decide (a = c)) as [->|Hne].
    + exists (S (String.length s)). simpl. by rewrite <- Hr.
    + exists (String.length s). by rewrite !app_String, app_empty_l, <- Hr.
  - exists n. by rewrite app_String, <- IH.
Qed.

Lemma rstrip_no_trail c s : last_char (rstrip (String c "") s) <> Some c.
Proof.
  induction s as [|a s IH]; [done|]. simpl.
  destruct (rstrip (String c "") s) as [|b kept] eqn:Hr.
  - destruct (decide (a = c)) as [->|Hne]; simpl; congruence.
  - exact IH.
Qed.

(** The methods on the strings the service meets. *)
Example rstrip_base_url :
  rstrip "/" "https://api.clashroyale.com/v1/" = "https://api.clashroyale.com/v1".
Proof. reflexivity. Qed.

Example rstrip_all_slashes : rstrip "/" "https://host//" = "https://host".
Proof. reflexivity. Qed.

Example lstrip_endpoint : lstrip "/" "//players/x/" = "players/x/".
Proof. reflexivity. Qed.

Example upper_tag : upper (replace1 "#" "" "#2q0#j8Yqv") = "2Q0J8YQV".
Proof. reflexivity. Qed.

Example slice_tag : slice_from 1 "#P0LYJC8L" = "P0LYJC8L".
Proof. reflexivity. Qed.

End StringFacts.

(** ** Decimal rendering of the status code *)

Section DecimalFacts.

Lemma pretty_N_char_no_colon x : pretty_N_char x <> ":"%char.
Proof. unfold pretty_N_char. by repeat case_match. Qed.

Lemma pretty_N_go_no_colon x s :
  ~ occurs ":" s -> ~ occurs ":" (pretty_N_go x s).
Proof.
  revert s. induction (N.lt_wf_0 x) as [x _ IH]; intros s Hs.
  assert (x = 0 \/ 0 < x)%N as [->|Hpos] by lia.
  - by rewrite pretty_N_go_0.
  - rewrite pretty_N_go_step by done. apply IH.
    + by apply N.div_lt.
    + simpl. intros [Hc|Hc]; [by apply pretty_N_char_no_colon in Hc|tauto].
Qed.

Lemma pretty_N_no_colon (x : N) : ~ occurs ":" (pretty x).
Proof.
  unfold pretty, pretty_N. case_decide.
  - simpl. intros [?|[]]. discriminate.
  - apply pretty_N_go_no_colon. simpl. tauto.
Qed.

(** The decimal text of an integer holds no colon. *)
Lemma pretty_Z_no_colon (z : Z) : ~ occurs ":" (pretty z).
Proof.
  destruct z as [|p|p]; unfold pretty, pretty_Z.
  - simpl. intros [?|[]]. discriminate.
  - apply pretty_N_no_colon.
  - rewrite app_String, app_empty_l. simpl.
    intros [?|Hc]; [discriminate|]. by apply pretty_N_no_colon in Hc.
Qed.

(** Two texts cut at their first colon agree part by part. *)
Lemma split_at_colon (a b x y : string) :
  ~ occurs ":" a -> ~ occurs ":" b ->
  a +:+ String ":" x = b +:+ String ":" y -> a = b /\ x = y.
Proof.
  revert b. induction a as [|c a IH]; intros [|d b] Ha Hb Heq;
    rewrite ?app_String, ?app_empty_l in Heq; simpl in Ha, Hb.
  - by injection Heq.
  - injection Heq as Hc _. symmetry in Hc. tauto.
  - injection Heq as Hc _. tauto.
  - injection Heq as -> Heq. apply IH in Heq as [-> ->]; tauto.
Qed.

End DecimalFacts.

(** ** The exceptions of [_make_request] *)

Section ExceptionFacts.

Lemma api_failed_inj s1 b1 s2 b2 :
  exc_api_failed s1 b1 = exc_api_failed s2 b2 -> s1 = s2 /\ b1 = b2.
Proof.
  unfold exc_api_failed. intros [= Heq].
  apply (inj (String.app _)) in Heq.
  apply split_at_colon in Heq as [Hs Hb]; auto using pretty_Z_no_colon.
  split; [by apply (inj pretty)|by injection Hb].
Qed.

Lemma connect_failed_inj m1 m2 :
  exc_connect_failed m1 = exc_connect_failed m2 -> m1 = m2.
Proof. unfold exc_connect_failed. intros [= Heq]. by apply (inj (String.app _)) in Heq. Qed.

Lemma api_failed_fresh s b :
  exc_api_failed s b <> exc_not_found /\
  exc_api_failed s b <> exc_forbidden /\
  exc_api_failed s b <> exc_rate_limited.
Proof. unfold exc_api_failed. repeat split; intros [= Heq]; discriminate Heq. Qed.

Lemma connect_failed_fresh m : exc_connect_failed m <> exc_timed_out.
Proof. unfold exc_connect_failed. intros [= Heq]; discriminate Heq. Qed.

Lemma value_error_not_request_exception m1 m2 :
  Exc ValueError m1 <> Exc RequestException m2.
Proof. discriminate. Qed.

End ExceptionFacts.

(** ** The request primitive *)

Section RequestFacts.

Context (lib : RequestsLib) (net : Network).

Implicit Types (st : state) (r : Response) (e : exc).

Lemma make_request_unfold endpoint params st :
  _make_request lib net endpoint params st =
  match net (calls st) (wire_request st endpoint params) with
  | GetRaises e => except_clauses lib None e (after_call st endpoint params)
  | GetReturns r =>
      catch (_ <~ raise_for_status r ;; response_json r)
            (except_clauses lib (Some r)) (after_call st endpoint params)
  end.
Proof.
  unfold _make_request, bind, get_self, session_get, wire_request, after_call.
  simpl. by destruct (net _ _).
Qed.

Lemma except_clauses_state response e st :
  (except_clauses lib response e st).2 = st.
Proof.
  unfold except_clauses, raise.
  repeat (case_match; try reflexivity).
Qed.

Lemma raise_for_status_error r st :
  400 <= status_code r < 600 ->
  exists m, raise_for_status r st = (Raise (Exc HTTPError m), st).
Proof.
  intros Hs. unfold raise_for_status, raise.
  destruct (400 <=? status_code r) eqn:H4; [|lia].
  destruct (status_code r <? 500) eqn:H5; simpl; [by eexists|].
  destruct (500 <=? status_code r) eqn:H6; [|lia].
  destruct (status_code r <? 600) eqn:H7; simpl; [by eexists|lia].
Qed.

Lemma raise_for_status_pass r st :
  ~ (400 <= status_code r < 600) -> raise_for_status r st = (Ok tt, st).
Proof.
  intros Hs. unfold raise_for_status, ret.
  destruct (400 <=? status_code r) eqn:H4, (status_code r <? 500) eqn:H5,
    (500 <=? status_code r) eqn:H6, (status_code r <? 600) eqn:H7;
    simpl; try reflexivity; lia.
Qed.

Lemma make_request_state endpoint params st :
  (_make_request lib net endpoint params st).2 = after_call st endpoint params.
Proof.
  rewrite make_request_unfold.
  destruct (net _ _) as [e|r]; [apply except_clauses_state|].
  unfold catch, bind.
  destruct (raise_for_status r _) as [[[]|e] st1] eqn:Hr.
  - assert (st1 = after_call st endpoint params) as ->.
    { unfold raise_for_status, raise, ret in Hr.
      repeat case_match; by simplify_eq. }
    unfold response_json, raise, ret.
    destruct (resp_json r); [apply except_clauses_state|done].
  - assert (st1 = after_call st endpoint params) as ->.
    { unfold raise_for_status, raise, ret in Hr.
      repeat case_match; by simplify_eq. }
    apply except_clauses_state.
Qed.

(** A 4xx or 5xx answer is turned into a [ValueError] chosen by status. *)
Lemma make_request_http_error endpoint params st r :
  net (calls st) (wire_request st endpoint params) = GetReturns r ->
  400 <= status_code r < 600 ->
  (_make_request lib net endpoint params st).1 =
  Raise (if decide (status_code r = 404) then exc_not_found
         else if decide (status_code r = 403) then exc_forbidden
         else if decide (status_code r = 429) then exc_rate_limited
         else exc_api_failed (status_code r) (text r)).
Proof.
  intros Hnet Hs. rewrite make_request_unfold, Hnet.
  unfold catch, bind.
  destruct (raise_for_status_error r (after_call st endpoint params) Hs)
    as [m ->].
  unfold except_clauses, raise. simpl.
  by repeat case_decide.
Qed.

(** Any other answer is decoded. *)
Lemma make_request_decodes endpoint params st r :
  net (calls st) (wire_request st endpoint params) = GetReturns r ->
  ~ (400 <= status_code r < 600) ->
  (_make_request lib net endpoint params st).1 =
  match resp_json r with
  | inr body => Ok body
  | inl m =>
      Raise (if json_error_is_request_exception lib
             then exc_connect_failed m else Exc JSONDecodeError m)
  end.
Proof.
  intros Hnet Hs. rewrite make_request_unfold, Hnet.
  unfold catch, bind. rewrite raise_for_status_pass by done.
  unfold response_json, raise, ret.
  destruct (resp_json r) as [m|body]; [|done].
  unfold except_clauses, isinstance, issubclass, raise. simpl.
  by destruct (json_error_is_request_exception lib).
Qed.

Lemma make_request_timeout endpoint params st e :
  net (calls st) (wire_request st endpoint params) = GetRaises e ->
  isinstance lib e Timeout = true ->
  (_make_request lib net endpoint params st).1 = Raise exc_timed_out.
Proof.
  intros Hnet Ht. rewrite make_request_unfold, Hnet.
  unfold except_clauses. by rewrite Ht.
Qed.

Lemma make_request_connection endpoint params st e :
  net (calls st) (wire_request st endpoint params) = GetRaises e ->
  isinstance lib e Timeout = false ->
  isinstance lib e HTTPError = false ->
  isinstance lib e RequestException = true ->
  (_make_request lib net endpoint params st).1 =
  Raise (exc_connect_failed (exc_msg e)).
Proof.
  intros Hnet Ht Hh Hr. rewrite make_request_unfold, Hnet.
  unfold except_clauses. by rewrite Ht, Hh, Hr.
Qed.

End RequestFacts.

(** ** Endpoints of the derived operations *)

Section EndpointFacts.

Context (lib : RequestsLib) (net : Network).

Implicit Types (st : state) (t : string).

(** The URL of a call whose endpoint has no leading slash. *)
Lemma wire_url_plain st (a : ascii) (rest : string) params :
  a <> "/"%char ->
  req_url (wire_request st (String a rest) params)
  = base_url (self st) +:+ "/" +:+ String a rest.
Proof.
  intros Ha. unfold wire_request, prepare_request. cbn [req_url].
  by rewrite lstrip_id.
Qed.

(** URLs built on the same base differ as soon as their paths do. *)
Lemma url_path_differs (base p q : string) :
  p <> q -> base +:+ "/" +:+ p <> base +:+ "/" +:+ q.
Proof. intros Hne Heq. by do 2 apply (inj (String.app _)) in Heq. Qed.

Lemma clan_endpoint t :
  get_clan_info lib net t
  = _make_request lib net ("clans/" +:+ upper (replace1 "#" "" t)) None.
Proof. unfold get_clan_info. by rewrite clan_tag_encoding_is_identity. Qed.

Lemma clan_war_log_endpoint t :
  get_clan_war_log lib net t
  = _make_request lib net
      ("clans/" +:+ upper (replace1 "#" "" t) +:+ "/warlog") None.
Proof. unfold get_clan_war_log. by rewrite clan_tag_encoding_is_identity. Qed.

Lemma clan_current_war_endpoint t :
  get_clan_current_war lib net t
  = _make_request lib net
      ("clans/" +:+ upper (replace1 "#" "" t) +:+ "/currentwar") None.
Proof. unfold get_clan_current_war. by rewrite clan_tag_encoding_is_identity. Qed.

(** The URL of a clan call never carries the encoded hash the upstream
    API expects in front of the tag. *)
Lemma clan_url_lacks_encoded_hash t st :
  let T := upper (replace1 "#" "" t) in
  (get_clan_info lib net t st).2 = after_call st ("clans/" +:+ T) None /\
  req_url (wire_request st ("clans/" +:+ T) None)
  = base_url (self st) +:+ "/clans/" +:+ T /\
  req_url (wire_request st ("clans/" +:+ T) None)
  <> base_url (self st) +:+ "/clans/%23" +:+ T.
Proof.
  intros T. rewrite clan_endpoint, make_request_state. fold T.
  assert (req_url (wire_request st ("clans/" +:+ T) None)
          = base_url (self st) +:+ "/clans/" +:+ T) as Hurl.
  { rewrite !app_String, app_empty_l. by rewrite wire_url_plain. }
  split; [done|]. split; [done|]. rewrite Hurl.
  intros Heq. apply (inj (String.app _)) in Heq.
  rewrite !app_String, !app_empty_l in Heq.
  injection Heq as Heq. symmetry in Heq.
  by apply (app_neq_self "%23" T) in Heq.
Qed.

Lemma player_endpoint_bare t :
  startswith t "#" = false ->
  get_player_info lib net t
  = _make_request lib net ("players/%23" +:+ t) None /\
  get_player_battle_log lib net t
  = _make_request lib net ("players/%23" +:+ t +:+ "/battlelog") None.
Proof.
  intros Hs. unfold get_player_info, get_player_battle_log. rewrite Hs.
  by rewrite <- !app_assoc_str.
Qed.

Lemma player_endpoint_hashed t :
  get_player_info lib net ("#" +:+ t)
  = _make_request lib net ("players/%23" +:+ t) None /\
  get_player_battle_log lib net ("#" +:+ t)
  = _make_request lib net ("players/%23" +:+ t +:+ "/battlelog") None.
Proof.
  unfold get_player_info, get_player_battle_log.
  rewrite startswith_app_char.
  change ("#" +:+ t) with (String "#" t). cbn [slice_from].
  by rewrite <- !app_assoc_str.
Qed.

End EndpointFacts.

(** ** The client object is only read *)

Section FrameFacts.

Context (lib : RequestsLib) (net : Network).

Lemma frames_ret {A} (a : A) : frames_self (ret a).
Proof. intros st. split; [done|]. exists []. by rewrite app_nil_r. Qed.

Lemma frames_raise {A} e : frames_self (raise (A := A) e).
Proof. intros st. split; [done|]. exists []. by rewrite app_nil_r. Qed.

Lemma frames_bind {A B} (m : M A) (k : A -> M B) :
  frames_self m -> (forall a, frames_self (k a)) -> frames_self (bind m k).
Proof.
  intros Hm Hk st. unfold bind.
  destruct (Hm st) as [Hself [sent Hsent]].
  destruct (m st) as [[a|e] st1]; simpl in *.
  - destruct (Hk a st1) as [Hself' [sent' Hsent']].
    split; [congruence|].
    exists (sent ++ sent')%list. by rewrite Hsent', Hsent, app_assoc.
  - split; [done|]. by exists sent.
Qed.

Lemma frames_make_request endpoint params :
  frames_self (_make_request lib net endpoint params).
Proof.
  intros st. rewrite make_request_state. split; [done|]. by eexists.
Qed.

Lemma frames_dict_get d key default : frames_self (dict_get d key default).
Proof. destruct d; first [apply frames_ret | apply frames_raise]. Qed.

Lemma frames_run op : frames_self (run lib net op).
Proof.
  destruct op; simpl run.
  - apply frames_make_request.
  - apply frames_make_request.
  - apply frames_make_request.
  - apply frames_make_request.
  - unfold get_clan_members.
    apply frames_bind; [apply frames_make_request|intros payload].
    do 2 (apply frames_bind; [apply frames_dict_get|intros ?]).
    apply frames_ret.
  - apply frames_make_request.
  - apply frames_make_request.
  - apply frames_make_request.
  - unfold get_pol_leaderboard. case_decide; apply frames_make_request.
  - apply frames_make_request.
  - apply frames_make_request.
Qed.

(** Reading the two fields off the clan payload changes no state. *)
Lemma clan_members_state t st :
  (get_clan_members lib net t st).2 = (get_clan_info lib net t st).2.
Proof.
  unfold get_clan_members, bind.
  destruct (get_clan_info lib net t st) as [[payload|e] st1]; [|done].
  by destruct payload.
Qed.

Lemma clan_members_of_dict t st fields :
  (get_clan_info lib net t st).1 = Ok (JObj fields) ->
  (get_clan_members lib net t st).1 =
  Ok (JObj (<["members" := default (JArr []) (fields !! "memberList")]>
              {["memberCount" := default (JNum 0) (fields !! "memberCount")]})).
Proof.
  unfold get_clan_members, bind.
  destruct (get_clan_info lib net t st) as [[payload|e] st1]; simpl; [|done].
  by intros [= ->].
Qed.

Lemma clan_members_propagates t st e :
  (get_clan_info lib net t st).1 = Raise e ->
  (get_clan_members lib net t st).1 = Raise e.
Proof.
  unfold get_clan_members, bind.
  destruct (get_clan_info lib net t st) as [[payload|e'] st1]; simpl; [done|].
  by intros [= ->].
Qed.

End FrameFacts.

(** * The claims *)

(** C1. The clan methods do not request [clans/%23{T}]: with
    [T] the tag upper-cased and every ['#'] removed, [get_clan_info],
    [get_clan_war_log] and [get_clan_current_war] request [clans/{T}],
    [clans/{T}/warlog] and [clans/{T}/currentwar]; the encoded hash is
    never put back, so the URL differs from the one with [%23] for every
    tag. For the tag [#2q0j8yqv] the client of the routes calls
    [https://api.clashroyale.com/v1/clans/2Q0J8YQV]. *)
Theorem clan_methods_drop_the_encoded_hash lib net t st credential :
  let T := upper (replace1 "#" "" t) in
  get_clan_info lib net t = _make_request lib net ("clans/" +:+ T) None /\
  get_clan_war_log lib net t
  = _make_request lib net ("clans/" +:+ T +:+ "/warlog") None /\
  get_clan_current_war lib net t
  = _make_request lib net ("clans/" +:+ T +:+ "/currentwar") None /\
  req_url (wire_request st ("clans/" +:+ T) None)
  <> base_url (self st) +:+ "/clans/%23" +:+ T /\
  req_url <$> calls (get_clan_info lib net "#2q0j8yqv" (fresh lib credential)).2
  = ["https://api.clashroyale.com/v1/clans/2Q0J8YQV"].
Proof.
  intros T.
  split; [apply clan_endpoint|].
  split; [apply clan_war_log_endpoint|].
  split; [apply clan_current_war_endpoint|].
  split; [apply (clan_url_lacks_encoded_hash lib net t st)|].
  by rewrite clan_endpoint, make_request_state.
Qed.

(** C2. A player tag without a leading ['#'] is requested as
    [players/%23{t}]; a tag ['#' + u] is requested as [players/%23{u}],
    the hash replaced and not doubled. [get_player_battle_log] does the
    same and appends [/battlelog]. *)
Theorem player_tag_gets_one_encoded_hash lib net (t u : string) :
  startswith t "#" = false ->
  (get_player_info lib net t
   = _make_request lib net ("players/%23" +:+ t) None /\
   get_player_battle_log lib net t
   = _make_request lib net ("players/%23" +:+ t +:+ "/battlelog") None) /\
  (get_player_info lib net ("#" +:+ u)
   = _make_request lib net ("players/%23" +:+ u) None /\
   get_player_battle_log lib net ("#" +:+ u)
   = _make_request lib net ("players/%23" +:+ u +:+ "/battlelog") None).
Proof.
  intros Hbare. split.
  - by apply player_endpoint_bare.
  - apply player_endpoint_hashed.
Qed.

Lemma player_tag_gets_one_encoded_hash_witness :
  startswith "P0LYJC8L" "#" = false /\
  get_player_info requests_2_31 (net_fails exc_timed_out) "P0LYJC8L"
  = _make_request requests_2_31 (net_fails exc_timed_out)
      "players/%23P0LYJC8L" None /\
  get_player_battle_log requests_2_31 (net_fails exc_timed_out) "#P0LYJC8L"
  = _make_request requests_2_31 (net_fails exc_timed_out)
      "players/%23P0LYJC8L/battlelog" None.
Proof.
  split; [reflexivity|].
  split.
  - apply (player_tag_gets_one_encoded_hash requests_2_31
             (net_fails exc_timed_out) "P0LYJC8L" "P0LYJC8L").
    reflexivity.
  - apply (player_tag_gets_one_encoded_hash requests_2_31
             (net_fails exc_timed_out) "P0LYJC8L" "P0LYJC8L").
    reflexivity.
Defined.

(** C10. A player tag that already starts with [%23] (and so not with
    ['#']) gets a second [%23]: the endpoint is [players/%23%23{rest}],
    with [/battlelog] appended by [get_player_battle_log], and it is not
    the endpoint [players/%23{rest}] of the tag it encodes. *)
Theorem encoded_player_tag_is_prefixed_again lib net (rest : string) :
  startswith ("%23" +:+ rest) "#" = false /\
  get_player_info lib net ("%23" +:+ rest)
  = _make_request lib net ("players/%23%23" +:+ rest) None /\
  get_player_battle_log lib net ("%23" +:+ rest)
  = _make_request lib net ("players/%23%23" +:+ rest +:+ "/battlelog") None /\
  "players/%23%23" +:+ rest <> "players/%23" +:+ rest.
Proof.
  assert (startswith ("%23" +:+ rest) "#" = false) as Hbare by done.
  split; [done|].
  destruct (player_endpoint_bare lib net _ Hbare) as [Hinfo Hlog].
  split; [exact Hinfo|]. split; [exact Hlog|].
  intros Heq. rewrite !app_String, !app_empty_l in Heq.
  simplify_eq. by apply (app_neq_self "%23" rest).
Qed.

(** C8. [get_pol_leaderboard(season)] requests
    [locations/global/pathoflegend/players] when [season] is ["current"]
    and [locations/global/pathoflegend/{season}/rankings/players]
    otherwise; the second path is never the first, and the calls for
    ["current"] and ["2025-12"] go to different URLs. *)
Theorem pol_leaderboard_endpoint lib net (season : string) st :
  (season = "current" ->
   get_pol_leaderboard lib net season
   = _make_request lib net "locations/global/pathoflegend/players" None) /\
  (season <> "current" ->
   get_pol_leaderboard lib net season
   = _make_request lib net
       ("locations/global/pathoflegend/" +:+ season +:+ "/rankings/players")
       None) /\
  "locations/global/pathoflegend/" +:+ season +:+ "/rankings/players"
  <> "locations/global/pathoflegend/players" /\
  calls (get_pol_leaderboard lib net "current" st).2
  <> calls (get_pol_leaderboard lib net "2025-12" st).2.
Proof.
  unfold get_pol_leaderboard. repeat split.
  - intros ->. by rewrite decide_True.
  - intros Hne. by rewrite decide_False.
  - intros Heq. apply (f_equal String.length) in Heq.
    rewrite !app_length_str in Heq. simpl in Heq. lia.
  - rewrite decide_True, decide_False by done.
    rewrite !make_request_state. unfold after_call.
    intros Heq. apply (inj (app _)) in Heq.
    apply (f_equal (fmap req_url)) in Heq.
    unfold wire_request, prepare_request in Heq. simpl in Heq.
    injection Heq as Heq. do 2 apply (inj (String.app _)) in Heq.
    discriminate Heq.
Qed.

Lemma pol_leaderboard_endpoint_witness :
  get_pol_leaderboard requests_2_31 (net_fails exc_timed_out) "current"
  = _make_request requests_2_31 (net_fails exc_timed_out)
      "locations/global/pathoflegend/players" None /\
  get_pol_leaderboard requests_2_31 (net_fails exc_timed_out) "2025-12"
  = _make_request requests_2_31 (net_fails exc_timed_out)
      "locations/global/pathoflegend/2025-12/rankings/players" None.
Proof.
  split.
  - apply (pol_leaderboard_endpoint requests_2_31 (net_fails exc_timed_out)
             "current" (fresh requests_2_31 "key")).
    reflexivity.
  - apply (pol_leaderboard_endpoint requests_2_31 (net_fails exc_timed_out)
             "2025-12" (fresh requests_2_31 "key")).
    discriminate.
Defined.

(** C6. [get_popular_clans(limit)] requests [clans] with the query
    parameters [minScore=40000] and [limit=min(limit, 200)]; left out,
    [limit] is 200; 500 is sent as 200 and 50 as 50. *)
Theorem popular_clans_limit_is_clamped lib net (limit : Z) st :
  let sent (n : Z) : gmap string param :=
    <["minScore" := PInt 40000]> {["limit" := PInt n]} in
  get_popular_clans lib net (Some limit)
  = _make_request lib net "clans" (Some (sent (Z.min limit 200))) /\
  get_popular_clans lib net None = get_popular_clans lib net (Some 200) /\
  get_popular_clans lib net (Some 500)
  = _make_request lib net "clans" (Some (sent 200)) /\
  get_popular_clans lib net (Some 50)
  = _make_request lib net "clans" (Some (sent 50)) /\
  (let rq := wire_request st "clans" (Some (sent (Z.min limit 200))) in
   (get_popular_clans lib net (Some limit) st).2
   = after_call st "clans" (Some (sent (Z.min limit 200))) /\
   req_url rq = base_url (self st) +:+ "/clans" /\
   req_params rq ≫= (.!! "limit") = Some (PInt (Z.min limit 200)) /\
   req_params rq ≫= (.!! "minScore") = Some (PInt 40000)).
Proof.
  intros sent. repeat split; try done.
  unfold get_popular_clans. simpl from_option. apply make_request_state.
Qed.

(** C7. The constructor stores [base_url] without its trailing slashes,
    and [_make_request] places one GET call at
    [base_url + "/" + endpoint], the endpoint without its leading
    slashes, carrying the header [Authorization: Bearer <credential>]. A
    client built on [https://api.example.com/v1/] sends [get_cards()] to
    [https://api.example.com/v1/cards] with that header. *)
Theorem request_url_and_authorization lib net
    (credential base : string) (tmo : option Z) (log : list Request)
    (endpoint : string) (params : option (gmap string param)) :
  let client := __init__ lib credential base tmo in
  let st := {| self := client; calls := log |} in
  base_url client = rstrip "/" base /\
  (exists n, base = base_url client +:+ repeat_char "/" n) /\
  last_char (base_url client) <> Some "/"%char /\
  (exists n, endpoint = repeat_char "/" n +:+ lstrip "/" endpoint) /\
  startswith (lstrip "/" endpoint) "/" = false /\
  (exists rq,
     calls (_make_request lib net endpoint params st).2 = (log ++ [rq])%list /\
     req_method rq = "GET" /\
     req_url rq = base_url client +:+ "/" +:+ lstrip "/" endpoint /\
     req_headers rq !! "Authorization" = Some ("Bearer " +:+ credential) /\
     req_headers rq !! "Accept" = Some "application/json" /\
     req_params rq = params /\
     req_timeout rq = default 30 tmo) /\
  (exists rq,
     calls (get_cards lib net (example_client lib credential)).2 = [rq] /\
     req_method rq = "GET" /\
     req_url rq = "https://api.example.com/v1/cards" /\
     req_headers rq !! "Authorization" = Some ("Bearer " +:+ credential)).
Proof.
  intros client st.
  split; [done|].
  split; [apply rstrip_decompose|].
  split; [apply rstrip_no_trail|].
  split; [apply lstrip_decompose|].
  split; [apply lstrip_no_lead|].
  split.
  - eexists. rewrite make_request_state. split; [reflexivity|].
    repeat split; simpl.
    + by rewrite lookup_insert_ne, lookup_insert_eq.
    + by rewrite lookup_insert_eq.
  - eexists. unfold get_cards. rewrite make_request_state.
    split; [reflexivity|]. repeat split; simpl.
    by rewrite lookup_insert_ne, lookup_insert_eq.
Qed.

(** C5. [get_clan_members(t)] leaves the state [get_clan_info(t)] leaves:
    one call, to the clan endpoint. When upstream answers that call with
    an object, the result is the object with [members], the payload's
    [memberList] or the empty list when the key is absent, and
    [memberCount], the payload's [memberCount] or 0 when the key is
    absent. An exception of [get_clan_info] is passed on. *)
Theorem clan_members_reuses_the_clan_call lib net (t : string) st :
  let T := upper (replace1 "#" "" t) in
  (get_clan_members lib net t st).2 = (get_clan_info lib net t st).2 /\
  calls (get_clan_members lib net t st).2
  = (calls st ++ [wire_request st ("clans/" +:+ T) None])%list /\
  (forall r fields,
     net (calls st) (wire_request st ("clans/" +:+ T) None) = GetReturns r ->
     ~ (400 <= status_code r < 600) ->
     resp_json r = inr (JObj fields) ->
     (get_clan_members lib net t st).1 =
     Ok (JObj (<["members" := default (JArr []) (fields !! "memberList")]>
                 {["memberCount" :=
                     default (JNum 0) (fields !! "memberCount")]}))) /\
  (forall e,
     (get_clan_info lib net t st).1 = Raise e ->
     (get_clan_members lib net t st).1 = Raise e).
Proof.
  intros T.
  split; [apply clan_members_state|].
  split.
  { rewrite clan_members_state, clan_endpoint. by rewrite make_request_state. }
  split.
  - intros r fields Hnet Hstatus Hbody. apply clan_members_of_dict.
    rewrite clan_endpoint.
    rewrite (make_request_decodes _ _ _ _ _ r) by done. by rewrite Hbody.
  - apply clan_members_propagates.
Qed.

Lemma clan_members_reuses_the_clan_call_witness :
  let net := net_answers 200 "{}" (inr (JObj ∅)) in
  (get_clan_members requests_2_31 net "#2q0j8yqv" (fresh requests_2_31 "key")).1
  = Ok (JObj (<["members" := JArr []]> {["memberCount" := JNum 0]})).
Proof.
  intros net.
  destruct (clan_members_reuses_the_clan_call requests_2_31 net "#2q0j8yqv"
              (fresh requests_2_31 "key")) as (_ & _ & Hresult & _).
  rewrite (Hresult
             {| status_code := 200; reason := "";
                resp_url := "https://api.clashroyale.com/v1/clans/2Q0J8YQV";
                text := "{}"; resp_json := inr (JObj ∅) |} ∅).
  - reflexivity.
  - reflexivity.
  - simpl. lia.
  - reflexivity.
Defined.

(** C9. Whatever method is called, with whatever arguments and whether
    it returns or raises, the client object is the same afterwards; in
    particular its credential, base URL and timeout. *)
Theorem configuration_is_never_written lib net (op : operation) st :
  let st' := (run lib net op st).2 in
  self st' = self st /\
  api_key (self st') = api_key (self st) /\
  base_url (self st') = base_url (self st) /\
  timeout (self st') = timeout (self st).
Proof.
  intros st'. destruct (frames_run lib net op st) as [Hself _].
  subst st'. by rewrite Hself.
Qed.

(** C3, as the code has it. For every call of [_make_request]: an answer
    with status 404 raises the not-found error, 403 the forbidden error,
    429 the rate-limit error, any other status from 400 to 599 the error
    that carries the status and the body; a timeout of [session.get]
    (a [Timeout] of [requests], connect and read timeouts included)
    raises the timed-out error, and a network-level failure of
    [session.get] (a [ConnectionError] of [requests]: name resolution,
    a refused or reset connection) raises the connection error carrying
    its message. The six errors are pairwise different whatever they
    carry, and the status, body and message can be read back from
    them. *)
Theorem make_request_classifies_failures lib net
    (endpoint : string) (params : option (gmap string param)) st :
  let outcome := net (calls st) (wire_request st endpoint params) in
  let raised := (_make_request lib net endpoint params st).1 in
  (forall r, outcome = GetReturns r -> status_code r = 404 ->
     raised = Raise exc_not_found) /\
  (forall r, outcome = GetReturns r -> status_code r = 403 ->
     raised = Raise exc_forbidden) /\
  (forall r, outcome = GetReturns r -> status_code r = 429 ->
     raised = Raise exc_rate_limited) /\
  (forall r, outcome = GetReturns r -> 400 <= status_code r < 600 ->
     status_code r <> 404 -> status_code r <> 403 -> status_code r <> 429 ->
     raised = Raise (exc_api_failed (status_code r) (text r))) /\
  (forall e, outcome = GetRaises e -> isinstance lib e Timeout = true ->
     raised = Raise exc_timed_out) /\
  (forall e, outcome = GetRaises e -> exc_cls e = ConnectionError ->
     raised = Raise (exc_connect_failed (exc_msg e))) /\
  (forall status body message,
     NoDup [exc_not_found; exc_forbidden; exc_rate_limited;
            exc_api_failed status body; exc_timed_out;
            exc_connect_failed message]) /\
  (forall s1 b1 s2 b2,
     exc_api_failed s1 b1 = exc_api_failed s2 b2 -> s1 = s2 /\ b1 = b2) /\
  (forall m1 m2, exc_connect_failed m1 = exc_connect_failed m2 -> m1 = m2).
Proof.
  intros outcome raised. subst outcome raised.
  split; [|split; [|split; [|split; [|split; [|split; [|split; [|split]]]]]]].
  - intros r Hnet Hs.
    rewrite (make_request_http_error _ _ _ _ _ r) by (done || lia).
    by rewrite decide_True.
  - intros r Hnet Hs.
    rewrite (make_request_http_error _ _ _ _ _ r) by (done || lia).
    rewrite decide_False by lia. by rewrite decide_True.
  - intros r Hnet Hs.
    rewrite (make_request_http_error _ _ _ _ _ r) by (done || lia).
    rewrite !decide_False by lia. by rewrite decide_True.
  - intros r Hnet Hs H404 H403 H429.
    rewrite (make_request_http_error _ _ _ _ _ r) by done.
    by rewrite !decide_False.
  - intros e Hnet Ht. by apply (make_request_timeout _ _ _ _ _ e).
  - intros e Hnet Hcls.
    apply make_request_connection; [done|unfold isinstance; by rewrite Hcls ..].
  - intros status body message.
    destruct (api_failed_fresh status body) as (Hnf & Hfb & Hrl).
    pose proof (connect_failed_fresh message) as Hcf.
    repeat (apply NoDup_cons; split);
      [set_unfold; intros Hin; repeat destruct Hin as [Hin|Hin];
         (by symmetry in Hin) || (by simplify_eq) || done ..|apply NoDup_nil_2].
  - apply api_failed_inj.
  - apply connect_failed_inj.
Qed.

Lemma make_request_classifies_failures_witness :
  let lib := requests_2_31 in
  let st := fresh lib "key" in
  let raised net := (_make_request lib net "cards" None st).1 in
  raised (net_answers 404 "" (inl "")) = Raise exc_not_found /\
  raised (net_answers 403 "" (inl "")) = Raise exc_forbidden /\
  raised (net_answers 429 "" (inl "")) = Raise exc_rate_limited /\
  raised (net_answers 503 "down" (inl "")) = Raise (exc_api_failed 503 "down") /\
  raised (net_fails (Exc ReadTimeout "Read timed out.")) = Raise exc_timed_out /\
  raised (net_fails (Exc ConnectionError "Connection refused"))
  = Raise (exc_connect_failed "Connection refused").
Proof.
  intros lib st raised.
  split; [|split; [|split; [|split; [|split]]]].
  - destruct (make_request_classifies_failures lib
                (net_answers 404 "" (inl "")) "cards" None st)
      as (H & _).
    apply (H {| status_code := 404; reason := "";
                resp_url := "https://api.clashroyale.com/v1/cards";
                text := ""; resp_json := inl "" |}); reflexivity.
  - destruct (make_request_classifies_failures lib
                (net_answers 403 "" (inl "")) "cards" None st)
      as (_ & H & _).
    apply (H {| status_code := 403; reason := "";
                resp_url := "https://api.clashroyale.com/v1/cards";
                text := ""; resp_json := inl "" |}); reflexivity.
  - destruct (make_request_classifies_failures lib
                (net_answers 429 "" (inl "")) "cards" None st)
      as (_ & _ & H & _).
    apply (H {| status_code := 429; reason := "";
                resp_url := "https://api.clashroyale.com/v1/cards";
                text := ""; resp_json := inl "" |}); reflexivity.
  - destruct (make_request_classifies_failures lib
                (net_answers 503 "down" (inl "")) "cards" None st)
      as (_ & _ & _ & H & _).
    apply (H {| status_code := 503; reason := "";
                resp_url := "https://api.clashroyale.com/v1/cards";
                text := "down"; resp_json := inl "" |});
      [reflexivity | simpl; lia | simpl; lia ..].
  - destruct (make_request_classifies_failures lib
                (net_fails (Exc ReadTimeout "Read timed out."))
                "cards" None st)
      as (_ & _ & _ & _ & H & _).
    apply (H (Exc ReadTimeout "Read timed out.")); reflexivity.
  - destruct (make_request_classifies_failures lib
                (net_fails (Exc ConnectionError "Connection refused"))
                "cards" None st)
      as (_ & _ & _ & _ & _ & H & _).
    apply (H (Exc ConnectionError "Connection refused")); reflexivity.
Defined.

(** C3 as stated fails: a status that is neither 2xx nor 4xx/5xx is not
    an error for [raise_for_status]. Upstream answers 304 with an empty
    body; the call does not raise the error carrying status and body but,
    the body not being JSON, the connection error (or, with an older
    [requests], the decoding error itself). *)
Lemma not_modified_is_not_an_upstream_error :
  let net := net_answers 304 "" (inl "Expecting value: line 1 column 1 (char 0)") in
  let st := fresh requests_2_31 "key" in
  (exists r, net (calls st) (wire_request st "cards" None) = GetReturns r /\
     status_code r = 304 /\ text r = "") /\
  ~ (200 <= 304 < 300) /\
  (_make_request requests_2_31 net "cards" None st).1
  = Raise (exc_connect_failed "Expecting value: line 1 column 1 (char 0)") /\
  (_make_request requests_2_31 net "cards" None st).1
  <> Raise (exc_api_failed 304 "") /\
  (_make_request requests_2_25 net "cards" None (fresh requests_2_25 "key")).1
  = Raise (Exc JSONDecodeError "Expecting value: line 1 column 1 (char 0)").
Proof.
  intros net st.
  split; [by eexists|]. split; [lia|].
  cut (forall P Q R : Prop, (P /\ Q) /\ R -> P /\ Q /\ R); [|tauto].
  intros Hassoc. apply Hassoc. split; [|reflexivity].
  assert ((_make_request requests_2_31 net "cards" None st).1
          = Raise (exc_connect_failed
                     "Expecting value: line 1 column 1 (char 0)")) as Hrun.
  { rewrite (make_request_decodes _ _ _ _ _
               {| status_code := 304; reason := "";
                  resp_url := "https://api.clashroyale.com/v1/cards";
                  text := "";
                  resp_json :=
                    inl "Expecting value: line 1 column 1 (char 0)" |});
      [reflexivity | reflexivity | simpl; lia]. }
  split; [exact Hrun|]. rewrite Hrun. discriminate.
Qed.

(** C4. When upstream answers with a 2xx status and a body that is not
    JSON, [_make_request] raises: the decoding error itself or, where
    the library makes that error a [RequestException], the connection
    error carrying its message. Either way it is none of the not-found,
    forbidden, rate-limit and timed-out errors. *)
Theorem malformed_body_is_a_distinct_failure lib net
    (endpoint : string) (params : option (gmap string param)) st r m :
  net (calls st) (wire_request st endpoint params) = GetReturns r ->
  200 <= status_code r < 300 ->
  resp_json r = inl m ->
  exists e,
    (_make_request lib net endpoint params st).1 = Raise e /\
    e = (if json_error_is_request_exception lib
         then exc_connect_failed m else Exc JSONDecodeError m) /\
    e <> exc_not_found /\ e <> exc_forbidden /\
    e <> exc_rate_limited /\ e <> exc_timed_out.
Proof.
  intros Hnet Hs Hbody. eexists. split; [|split; [reflexivity|]].
  - rewrite (make_request_decodes _ _ _ _ _ r) by (done || lia).
    by rewrite Hbody.
  - pose proof (connect_failed_fresh m).
    destruct (json_error_is_request_exception lib); by repeat split.
Qed.

Lemma malformed_body_is_a_distinct_failure_witness :
  let net := net_answers 200 "<html>" (inl "Expecting value") in
  exists e,
    (_make_request requests_2_25 net "cards" None (fresh requests_2_25 "key")).1
    = Raise e /\
    e = Exc JSONDecodeError "Expecting value" /\
    e <> exc_not_found /\ e <> exc_forbidden /\
    e <> exc_rate_limited /\ e <> exc_timed_out.
Proof.
  intros net.
  apply (malformed_body_is_a_distinct_failure requests_2_25 net "cards" None
           (fresh requests_2_25 "key")
           {| status_code := 200; reason := "";
              resp_url := "https://api.clashroyale.com/v1/cards";
              text := "<html>"; resp_json := inl "Expecting value" |}
           "Expecting value").
  - reflexivity.
  - simpl. lia.
  - reflexivity.
Defined.

(** * Further properties of the service *)

Section ServiceExtras.

Context (lib : RequestsLib) (net : Network).

Implicit Types (st : state) (t : string).

Lemma rstrip_trailing (c : ascii) (s : string) :
  rstrip (String c "") (s +:+ String c "") = rstrip (String c "") s.
Proof.
  induction s as [|a s IH].
  - rewrite app_empty_l. simpl. by rewrite decide_True.
  - rewrite app_String. simpl. by rewrite IH.
Qed.

Lemma lstrip_leading (c : ascii) (s : string) :
  lstrip (String c "") (String c "" +:+ s) = lstrip (String c "") s.
Proof. rewrite app_String, app_empty_l. simpl. by rewrite decide_True. Qed.

(** ** Case changes on ASCII text

    The laws of [str.upper] and [str.lower] used below hold on ASCII
    text, and are stated for it. *)

Lemma isascii_hash (s : string) : isascii s = true -> isascii ("#" +:+ s) = true.
Proof. done. Qed.

Lemma upper_ascii_below (a : ascii) :
  (N_of_ascii a <? 128)%N = true -> (N_of_ascii (upper_ascii a) <? 128)%N = true.
Proof. by destruct a as [[] [] [] [] [] [] [] []]. Qed.

Lemma isascii_upper (s : string) : isascii s = true -> isascii (upper s) = true.
Proof.
  induction s as [|a s IH]; simpl; [done|].
  intros [Ha Hs]%andb_prop. by rewrite upper_ascii_below, IH.
Qed.

Lemma isascii_delete_hash (s : string) :
  isascii s = true -> isascii (replace1 "#" "" s) = true.
Proof.
  induction s as [|a s IH]; simpl; [done|].
  intros [Ha Hs]%andb_prop. case_decide.
  - rewrite app_empty_l. by apply IH.
  - simpl. by rewrite Ha, IH.
Qed.

Lemma upper_ascii_idem (a : ascii) :
  (N_of_ascii a <? 128)%N = true ->
  upper_ascii (upper_ascii a) = upper_ascii a.
Proof. by destruct a as [[] [] [] [] [] [] [] []]. Qed.

Lemma upper_lower_ascii (a : ascii) :
  (N_of_ascii a <? 128)%N = true ->
  upper_ascii (lower_ascii a) = upper_ascii a.
Proof. by destruct a as [[] [] [] [] [] [] [] []]. Qed.

Lemma lower_upper_ascii (a : ascii) :
  (N_of_ascii a <? 128)%N = true ->
  lower_ascii (upper_ascii a) = lower_ascii a.
Proof. by destruct a as [[] [] [] [] [] [] [] []]. Qed.

Lemma upper_ascii_keeps_hash (a : ascii) :
  upper_ascii a = "#"%char <-> a = "#"%char.
Proof. split; [apply upper_ascii_hash|by intros ->]. Qed.

Lemma lower_ascii_keeps_hash (a : ascii) :
  lower_ascii a = "#"%char <-> a = "#"%char.
Proof.
  split; [|by intros ->].
  destruct a as [[] [] [] [] [] [] [] []]; vm_compute; congruence.
Qed.

Lemma upper_idem (s : string) : isascii s = true -> upper (upper s) = upper s.
Proof.
  induction s as [|a s IH]; simpl; [done|].
  intros [Ha Hs]%andb_prop. by rewrite upper_ascii_idem, IH.
Qed.

Lemma upper_lower (s : string) : isascii s = true -> upper (lower s) = upper s.
Proof.
  induction s as [|a s IH]; simpl; [done|].
  intros [Ha Hs]%andb_prop. by rewrite upper_lower_ascii, IH.
Qed.

Lemma lower_upper (s : string) : isascii s = true -> lower (upper s) = lower s.
Proof.
  induction s as [|a s IH]; simpl; [done|].
  intros [Ha Hs]%andb_prop. by rewrite lower_upper_ascii, IH.
Qed.

(** On ASCII text, deleting the hashes commutes with changing case. *)
Lemma delete_hash_upper (s : string) :
  isascii s = true ->
  replace1 "#" "" (upper s) = upper (replace1 "#" "" s).
Proof.
  induction s as [|a s IH]; [done|]. simpl.
  intros [Ha Hs]%andb_prop.
  destruct (decide (a = "#"%char)) as [->|Hne].
  - rewrite decide_True by done. rewrite !app_empty_l. by apply IH.
  - rewrite decide_False by (by rewrite upper_ascii_keeps_hash).
    simpl. by rewrite IH.
Qed.

Lemma delete_hash_lower (s : string) :
  isascii s = true ->
  replace1 "#" "" (lower s) = lower (replace1 "#" "" s).
Proof.
  induction s as [|a s IH]; [done|]. simpl.
  intros [Ha Hs]%andb_prop.
  destruct (decide (a = "#"%char)) as [->|Hne].
  - rewrite decide_True by done. rewrite !app_empty_l. by apply IH.
  - rewrite decide_False by (by rewrite lower_ascii_keeps_hash).
    simpl. by rewrite IH.
Qed.

(** The tag the clan methods send, as a function of the tag given. *)
Lemma clan_tag_sent_again t :
  isascii t = true ->
  upper (replace1 "#" "" (upper (replace1 "#" "" t)))
  = upper (replace1 "#" "" t).
Proof.
  intros Ht. rewrite (replace1_absent "#" "" (upper _)).
  - by apply upper_idem, isascii_delete_hash.
  - apply upper_no_hash, replace1_delete_no_occurs.
Qed.

(** X1. When upstream answers a call with a status outside 400-599 and a
    body that decodes, [_make_request] returns the decoded body
    unchanged, whatever its shape, and has placed that one call. *)
Theorem make_request_returns_the_decoded_body
    (endpoint : string) (params : option (gmap string param)) st r payload :
  net (calls st) (wire_request st endpoint params) = GetReturns r ->
  ~ (400 <= status_code r < 600) ->
  resp_json r = inr payload ->
  _make_request lib net endpoint params st
  = (Ok payload, after_call st endpoint params).
Proof.
  intros Hnet Hstatus Hbody.
  rewrite (surjective_pairing (_make_request lib net endpoint params st)).
  rewrite make_request_state.
  rewrite (make_request_decodes _ _ _ _ _ r) by done. by rewrite Hbody.
Qed.

(** Every method amounts to one call of [_make_request]: it leaves the
    state that call leaves and fails when that call fails. *)
Lemma run_amounts_to_one_request (op : operation) :
  exists endpoint params, forall st,
    (run lib net op st).2 = after_call st endpoint params /\
    (forall e, (_make_request lib net endpoint params st).1 = Raise e ->
               (run lib net op st).1 = Raise e) /\
    ((forall t, op <> Call_get_clan_members t) ->
     run lib net op st = _make_request lib net endpoint params st).
Proof.
  assert (forall endpoint params st,
            (_make_request lib net endpoint params st).2
            = after_call st endpoint params /\
            (forall e, (_make_request lib net endpoint params st).1 = Raise e ->
                       (_make_request lib net endpoint params st).1 = Raise e) /\
            ((forall t, op <> Call_get_clan_members t) ->
             _make_request lib net endpoint params st
             = _make_request lib net endpoint params st)) as Hplain.
  { intros endpoint params st. split; [apply make_request_state|]. by split. }
  destruct op as [endpoint params|t|t|t|t|t|t| |season|name|limit]; simpl run.
  - by eexists _, _.
  - unfold get_player_info. by eexists _, _.
  - unfold get_player_battle_log. by eexists _, _.
  - rewrite clan_endpoint. by eexists _, _.
  - exists ("clans/" +:+ upper (replace1 "#" "" t)), None. intros st.
    split; [|split].
    + rewrite clan_members_state, clan_endpoint. apply make_request_state.
    + intros e He. apply clan_members_propagates. by rewrite clan_endpoint.
    + intros Hno. by destruct (Hno t).
  - rewrite clan_war_log_endpoint. by eexists _, _.
  - rewrite clan_current_war_endpoint. by eexists _, _.
  - unfold get_cards. by eexists _, _.
  - unfold get_pol_leaderboard. case_decide; by eexists _, _.
  - unfold get_tournaments. by eexists _, _.
  - unfold get_popular_clans. by eexists _, _.
Qed.

(** X2. Whatever method is called and whatever the network does, the
    method places exactly one call: a GET below the client's base URL,
    with the session's headers and the client's timeout. Nothing is
    retried. *)
Theorem every_method_places_exactly_one_call (op : operation) st :
  exists rq path,
    calls (run lib net op st).2 = (calls st ++ [rq])%list /\
    req_method rq = "GET" /\
    req_url rq = base_url (self st) +:+ "/" +:+ path /\
    req_headers rq = headers (session (self st)) /\
    req_timeout rq = timeout (self st).
Proof.
  destruct (run_amounts_to_one_request op) as (endpoint & params & Hrun).
  destruct (Hrun st) as (Hstate & _).
  exists (wire_request st endpoint params), (lstrip "/" endpoint).
  by rewrite Hstate.
Qed.

(** The exceptions the [except] clauses let out. *)
Lemma except_clauses_classes response e st e' :
  (except_clauses lib response e st).1 = Raise e' ->
  isinstance lib e' RequestException = true -> exc_cls e' = RequestException.
Proof.
  unfold except_clauses, raise.
  destruct (isinstance lib e Timeout) eqn:Ht; [by intros [= <-]|].
  destruct (isinstance lib e HTTPError) eqn:Hh.
  { destruct response as [r|]; repeat case_decide; by intros [= <-]. }
  destruct (isinstance lib e RequestException) eqn:Hr; [by intros [= <-]|].
  simpl. intros [= <-]. congruence.
Qed.

Lemma make_request_classes endpoint params st e' :
  (_make_request lib net endpoint params st).1 = Raise e' ->
  isinstance lib e' RequestException = true -> exc_cls e' = RequestException.
Proof.
  rewrite make_request_unfold.
  destruct (net _ _) as [e|r]; [apply except_clauses_classes|].
  unfold catch, bind.
  destruct (raise_for_status r _) as [[[]|e] st1] eqn:Hr.
  - unfold response_json, raise, ret.
    destruct (resp_json r); [apply except_clauses_classes|done].
  - apply except_clauses_classes.
Qed.

(** X3. No exception of a [requests] subclass leaves a method: an
    exception it raises that is a [RequestException] has exactly that
    class, so never [Timeout], [ConnectionError] or [HTTPError]. *)
Theorem only_plain_request_exceptions_escape (op : operation) st e :
  (run lib net op st).1 = Raise e ->
  isinstance lib e RequestException = true ->
  exc_cls e = RequestException.
Proof.
  destruct (run_amounts_to_one_request op) as (endpoint & params & Hrun).
  destruct (Hrun st) as (_ & _ & Hsame).
  assert ((exists t, op = Call_get_clan_members t)
          \/ (forall t, op <> Call_get_clan_members t)) as [[t ->]|Hno].
  { destruct op; (by left; eexists) || (by right). }
  - simpl run. unfold get_clan_members, bind.
    destruct (get_clan_info lib net t st) as [[payload|e0] st1] eqn:Hinfo.
    + destruct payload; simpl; try (intros [= <-]; by vm_compute); done.
    + simpl. intros [= <-].
      apply (make_request_classes ("clans/" +:+ upper (replace1 "#" "" t))
               None st).
      by rewrite <- clan_endpoint, Hinfo.
  - rewrite Hsame by done. apply make_request_classes.
Qed.

(** X4. Leading slashes of the endpoint do not matter to
    [_make_request]. *)
Theorem leading_slash_of_endpoint_is_ignored
    (endpoint : string) (params : option (gmap string param)) :
  _make_request lib net ("/" +:+ endpoint) params
  = _make_request lib net endpoint params.
Proof. unfold _make_request. by rewrite lstrip_leading. Qed.

(** X5. A trailing slash of the base URL does not matter to the
    constructor: the clients are the same, and so are their calls. *)
Theorem trailing_slash_of_base_url_is_ignored
    (credential base : string) (tmo : option Z) :
  __init__ lib credential (base +:+ "/") tmo = __init__ lib credential base tmo.
Proof. unfold __init__. by rewrite rstrip_trailing. Qed.

(** X6. For a tag of ASCII characters, the clan methods do not tell
    apart its spellings: a leading hash, upper or lower case, or the tag
    they send themselves all lead to the same call. *)
Theorem clan_tag_spelling_does_not_matter t :
  isascii t = true ->
  get_clan_info lib net ("#" +:+ t) = get_clan_info lib net t /\
  get_clan_info lib net (upper t) = get_clan_info lib net t /\
  get_clan_info lib net (lower t) = get_clan_info lib net t /\
  get_clan_info lib net (upper (replace1 "#" "" t)) = get_clan_info lib net t /\
  get_clan_war_log lib net (lower ("#" +:+ t)) = get_clan_war_log lib net t /\
  get_clan_current_war lib net (lower ("#" +:+ t))
  = get_clan_current_war lib net t.
Proof.
  intros Ht.
  pose proof (isascii_hash t Ht) as Hht.
  pose proof (isascii_delete_hash t Ht) as Hdt.
  rewrite !clan_endpoint, !clan_war_log_endpoint, !clan_current_war_endpoint.
  rewrite (clan_tag_sent_again t Ht).
  rewrite (delete_hash_upper t Ht), (upper_idem _ Hdt).
  rewrite (delete_hash_lower t Ht), (upper_lower _ Hdt).
  rewrite (delete_hash_lower _ Hht), (upper_lower _ (isascii_delete_hash _ Hht)).
  done.
Qed.


(** X8. [get_clan_members] fails with an [AttributeError] naming the
    type when the clan payload is not an object, and otherwise returns
    an object with the two keys [members] and [memberCount] and no
    other. *)
Theorem clan_members_shape t st payload :
  (get_clan_info lib net t st).1 = Ok payload ->
  match payload with
  | JObj fields =>
      exists answer,
        (get_clan_members lib net t st).1 = Ok (JObj answer) /\
        dom answer = ({["members"; "memberCount"]} : gset string)
  | _ =>
      (get_clan_members lib net t st).1
      = Raise (Exc AttributeError
                 ("'" +:+ py_type_name payload
                    +:+ "' object has no attribute 'get'"))
  end.
Proof.
  intros Hinfo. unfold get_clan_members, bind.
  destruct (get_clan_info lib net t st) as [[v|e] st1]; simpl in Hinfo; [|done].
  injection Hinfo as ->.
  destruct payload; try done.
  simpl. eexists. split; [done|].
  rewrite dom_insert_L, dom_singleton_L. done.
Qed.

End ServiceExtras.

(** * Properties of the handlers *)

Section HandlerBasics.

Context (lib : RequestsLib).

Implicit Types (rs : rstate) (e : exc).

Lemma service_is_built credential base tmo rs :
  get_clash_royale_service lib (configured credential base tmo) rs
  = (ROk (__init__ lib credential base (Some (default 30 tmo))), rs).
Proof. reflexivity. Qed.

Lemma call_result {A} (service : ClashRoyaleService) (method : M A) rs :
  call service method rs
  = match method {| self := service; calls := r_calls rs |} with
    | (Ok a, st) => (ROk (self st, a), after_service rs st)
    | (Raise e, st) => (RRaise (of_lib e), after_service rs st)
    end.
Proof. reflexivity. Qed.

End HandlerBasics.

(** What every handler does when its first call on the service raises:
    the answer is chosen by the class of the exception alone, and the
    message of a 500 answer is fixed by the handler. *)
Lemma handle_when_the_first_call_raises (rt : route) :
  exists message prefix,
  forall lib net float_truth credential base tmo op rs e,
    first_call rt = Some op ->
    (run lib net op (service_state lib credential base tmo rs)).1 = Raise e ->
    handle lib net float_truth (configured credential base tmo) rt rs
    = if reports_value_errors rt && isinstance lib e ValueError then
        (ROk (error_response (exc_msg e) 400),
         after_service rs
           (run lib net op (service_state lib credential base tmo rs)).2)
      else
        (ROk (error_response message 500),
         {| r_calls :=
              calls (run lib net op
                       (service_state lib credential base tmo rs)).2;
            app_log := (app_log rs ++ [prefix +:+ exc_msg e])%list |}).
Proof.
  destruct rt as [t|t|t|t|t|t|t|t| |r|n|args|s];
    [exists "An unexpected error occurred while fetching player data",
       ("Error fetching player " +:+ t +:+ ": ")
    |exists "An unexpected error occurred while fetching battle log",
       ("Error fetching battle log for " +:+ t +:+ ": ")
    |exists "An unexpected error occurred while fetching current deck",
       ("Error fetching current deck for " +:+ t +:+ ": ")
    |exists "An unexpected error occurred while fetching player stats",
       ("Error fetching stats for " +:+ t +:+ ": ")
    |exists "An unexpected error occurred while fetching clan data",
       ("Error fetching clan " +:+ t +:+ ": ")
    |exists "An unexpected error occurred while fetching clan members",
       ("Error fetching clan members for " +:+ t +:+ ": ")
    |exists "An unexpected error occurred while fetching war log",
       ("Error fetching war log for " +:+ t +:+ ": ")
    |exists "An unexpected error occurred while fetching current war",
       ("Error fetching current war for " +:+ t +:+ ": ")
    |exists "An unexpected error occurred while fetching cards",
       "Error fetching cards: "
    |exists "An unexpected error occurred while fetching cards",
       ("Error fetching cards by rarity " +:+ r +:+ ": ")
    |exists "An unexpected error occurred while fetching card info",
       ("Error fetching card info by name " +:+ n +:+ ": ")
    |exists "An unexpected error occurred while searching tournaments",
       "Error searching tournaments: "
    |exists "An unexpected error occurred while fetching cards",
       "Error fetching cards: "];
    intros lib net float_truth credential base tmo op rs e Hop Hrun;
    simpl in Hop;
    try (destruct (args !! "name") as [[|a name]|] eqn:Hname; try done);
    simplify_eq; simpl run in *;
    unfold handle, PlayerRoutes.get_player, PlayerRoutes.get_player_battle_log,
      PlayerRoutes.get_current_deck, PlayerRoutes.current_deck_body,
      PlayerRoutes.get_player_stats, ClanRoutes.get_clan,
      ClanRoutes.get_clan_members, ClanRoutes.get_clan_war_log,
      ClanRoutes.get_clan_current_war, CardRoutes.get_all_cards,
      CardRoutes.get_cards_by_rarity, CardRoutes.get_card_info,
      TournamentRoutes.search_tournaments,
      LeaderboardRoutes.get_pol_leaderboard;
    unfold rcatch; rewrite ?Hname; cbv beta iota; unfold rbind at 1;
    rewrite service_is_built; cbv beta iota; unfold rbind at 1;
    rewrite call_result; fold (service_state lib credential base tmo rs);
    match type of Hrun with
    | (?m ?st).1 = Raise _ =>
        destruct (m st) as [[a0|e0] st1] eqn:Hm; simpl in Hrun; simplify_eq
    end;
    cbn [fst snd reports_value_errors andb];
    unfold py_isinstance, of_lib, py_issubclass; cbn [py_cls py_msg exc_cls exc_msg];
    fold (isinstance lib e ValueError);
    destruct (isinstance lib e ValueError) eqn:Hv;
    rewrite ?bool_decide_eq_false_2 by done; cbn [orb];
    rewrite ?app_assoc_str; reflexivity.
Qed.

(** What a handler that passes the answer through does when its call
    returns. *)
Lemma handle_when_the_call_returns (rt : route)
    lib net float_truth credential base tmo op rs data :
  passes_through rt = true ->
  first_call rt = Some op ->
  (run lib net op (service_state lib credential base tmo rs)).1 = Ok data ->
  handle lib net float_truth (configured credential base tmo) rt rs
  = (ROk (success_response data),
     after_service rs
       (run lib net op (service_state lib credential base tmo rs)).2).
Proof.
  intros Hpass Hop Hrun.
  destruct rt as [t|t|t|t|t|t|t|t| |r|n|args|s]; try discriminate Hpass;
    simpl in Hop;
    try (destruct (args !! "name") as [[|a name]|] eqn:Hname; try done);
    simplify_eq; simpl run in *;
    unfold handle, PlayerRoutes.get_player, PlayerRoutes.get_player_battle_log,
      ClanRoutes.get_clan, ClanRoutes.get_clan_members,
      ClanRoutes.get_clan_war_log, ClanRoutes.get_clan_current_war,
      CardRoutes.get_all_cards, TournamentRoutes.search_tournaments,
      LeaderboardRoutes.get_pol_leaderboard;
    unfold rcatch; rewrite ?Hname; cbv beta iota; unfold rbind at 1;
    rewrite service_is_built; cbv beta iota; unfold rbind at 1;
    rewrite call_result; fold (service_state lib credential base tmo rs);
    match type of Hrun with
    | (?m ?st).1 = Ok _ =>
        destruct (m st) as [[a0|e0] st1] eqn:Hm; simpl in Hrun; simplify_eq
    end;
    reflexivity.
Qed.

(** The call a method has placed is the last of the log; what upstream
    answers to it decides how the method ends. *)
Lemma run_on_error_status lib net (op : operation) st rq r :
  last (calls (run lib net op st).2) = Some rq ->
  net (calls st) rq = GetReturns r ->
  400 <= status_code r < 600 ->
  (run lib net op st).2 = {| self := self st; calls := (calls st ++ [rq])%list |} /\
  (run lib net op st).1 =
  Raise (if decide (status_code r = 404) then exc_not_found
         else if decide (status_code r = 403) then exc_forbidden
         else if decide (status_code r = 429) then exc_rate_limited
         else exc_api_failed (status_code r) (text r)).
Proof.
  destruct (run_amounts_to_one_request lib net op) as (endpoint & params & Hrun).
  destruct (Hrun st) as (Hstate & Hraise & _).
  rewrite Hstate. unfold after_call. cbn [calls]. rewrite last_snoc.
  intros [= <-] Hnet Hstatus. split; [done|].
  apply Hraise. by apply make_request_http_error.
Qed.

Lemma run_on_network_failure lib net (op : operation) st rq e :
  last (calls (run lib net op st).2) = Some rq ->
  net (calls st) rq = GetRaises e ->
  isinstance lib e HTTPError = false ->
  isinstance lib e RequestException = true ->
  (run lib net op st).2 = {| self := self st; calls := (calls st ++ [rq])%list |} /\
  exists e', (run lib net op st).1 = Raise e' /\
             exc_cls e' = RequestException /\
             (e' = exc_timed_out \/ e' = exc_connect_failed (exc_msg e)).
Proof.
  destruct (run_amounts_to_one_request lib net op) as (endpoint & params & Hrun).
  destruct (Hrun st) as (Hstate & Hraise & _).
  rewrite Hstate. unfold after_call. cbn [calls]. rewrite last_snoc.
  intros [= <-] Hnet Hh Hr. split; [done|].
  destruct (isinstance lib e Timeout) eqn:Ht.
  - exists exc_timed_out. split; [|by auto].
    apply Hraise. by apply (make_request_timeout _ _ _ _ _ e).
  - exists (exc_connect_failed (exc_msg e)). split; [|by auto].
    apply Hraise. by apply make_request_connection.
Qed.

Lemma run_on_undecodable_body lib net (op : operation) st rq r m :
  last (calls (run lib net op st).2) = Some rq ->
  net (calls st) rq = GetReturns r ->
  ~ (400 <= status_code r < 600) ->
  resp_json r = inl m ->
  (run lib net op st).2 = {| self := self st; calls := (calls st ++ [rq])%list |} /\
  (run lib net op st).1 =
  Raise (if json_error_is_request_exception lib
         then exc_connect_failed m else Exc JSONDecodeError m).
Proof.
  destruct (run_amounts_to_one_request lib net op) as (endpoint & params & Hrun).
  destruct (Hrun st) as (Hstate & Hraise & _).
  rewrite Hstate. unfold after_call. cbn [calls]. rewrite last_snoc.
  intros [= <-] Hnet Hstatus Hbody. split; [done|].
  apply Hraise. rewrite (make_request_decodes _ _ _ _ _ r) by done.
  by rewrite Hbody.
Qed.

(** A [ValueError] of the first service call, in a handler with an
    [except ValueError] clause. *)
Lemma handle_value_error (rt : route)
    lib net float_truth credential base tmo op rs e :
  reports_value_errors rt = true ->
  first_call rt = Some op ->
  (run lib net op (service_state lib credential base tmo rs)).1 = Raise e ->
  isinstance lib e ValueError = true ->
  handle lib net float_truth (configured credential base tmo) rt rs
  = (ROk (error_response (exc_msg e) 400),
     after_service rs
       (run lib net op (service_state lib credential base tmo rs)).2).
Proof.
  intros Hrep Hop Hrun Hv.
  destruct (handle_when_the_first_call_raises rt) as (message & prefix & H).
  rewrite (H _ _ _ _ _ _ _ _ _ Hop Hrun). by rewrite Hrep, Hv.
Qed.

(** X9. In the player and clan handlers, an upstream status from 400 to
    599 is answered with status 400, also when it is a 5xx: the error is
    the service's message for that status, one call has been placed and
    nothing is logged. *)
Theorem upstream_error_statuses_are_answered_400 (rt : route)
    lib net float_truth credential base tmo op rs rq r :
  reports_value_errors rt = true ->
  first_call rt = Some op ->
  last (calls (run lib net op (service_state lib credential base tmo rs)).2)
  = Some rq ->
  net (r_calls rs) rq = GetReturns r ->
  400 <= status_code r < 600 ->
  handle lib net float_truth (configured credential base tmo) rt rs
  = (ROk (error_response
            (exc_msg (if decide (status_code r = 404) then exc_not_found
                      else if decide (status_code r = 403) then exc_forbidden
                      else if decide (status_code r = 429) then exc_rate_limited
                      else exc_api_failed (status_code r) (text r)))
            400),
     {| r_calls := (r_calls rs ++ [rq])%list; app_log := app_log rs |}).
Proof.
  intros Hrep Hop Hlast Hnet Hstatus.
  destruct (run_on_error_status lib net op _ rq r Hlast Hnet Hstatus)
    as [Hstate Hraise].
  rewrite (handle_value_error rt _ _ _ _ _ _ op rs _ Hrep Hop Hraise).
  - by rewrite Hstate.
  - by repeat case_decide.
Qed.

Lemma run_on_success lib net (op : operation) st rq r payload :
  (forall t, op <> Call_get_clan_members t) ->
  last (calls (run lib net op st).2) = Some rq ->
  net (calls st) rq = GetReturns r ->
  ~ (400 <= status_code r < 600) ->
  resp_json r = inr payload ->
  run lib net op st
  = (Ok payload, {| self := self st; calls := (calls st ++ [rq])%list |}).
Proof.
  intros Hop.
  destruct (run_amounts_to_one_request lib net op) as (endpoint & params & Hrun).
  destruct (Hrun st) as (Hstate & _ & Hsame).
  rewrite Hstate. unfold after_call. cbn [calls]. rewrite last_snoc.
  intros [= <-] Hnet Hstatus Hbody.
  rewrite (surjective_pairing (run lib net op st)), Hstate.
  rewrite (Hsame Hop), (make_request_decodes _ _ _ _ _ r) by done.
  by rewrite Hbody.
Qed.

(** X10. The handlers of the card, tournament and leaderboard routes
    have no [except ValueError] clause: an upstream status from 400 to
    599, a 404 for an unknown season included, is answered with status
    500 and the handler's fixed message, and logged. *)
Theorem routes_without_value_error_clause_answer_500 (rt : route) :
  exists message,
  forall lib net float_truth credential base tmo op rs rq r,
    reports_value_errors rt = false ->
    first_call rt = Some op ->
    last (calls (run lib net op (service_state lib credential base tmo rs)).2)
    = Some rq ->
    net (r_calls rs) rq = GetReturns r ->
    400 <= status_code r < 600 ->
    exists line,
      handle lib net float_truth (configured credential base tmo) rt rs
      = (ROk (error_response message 500),
         {| r_calls := (r_calls rs ++ [rq])%list;
            app_log := (app_log rs ++ [line])%list |}).
Proof.
  destruct (handle_when_the_first_call_raises rt) as (message & prefix & H).
  exists message.
  intros lib net float_truth credential base tmo op rs rq r
    Hrep Hop Hlast Hnet Hstatus.
  destruct (run_on_error_status lib net op _ rq r Hlast Hnet Hstatus)
    as [Hstate Hraise].
  eexists. rewrite (H _ _ _ _ _ _ _ _ _ Hop Hraise).
  by rewrite Hrep, Hstate.
Qed.

(** X11. On every handler, a timeout or any other network failure of
    the first call is answered with status 500 and a message fixed by
    the handler, which says nothing of the failure; the failure goes to
    the application log, and the call is not tried again. *)
Theorem network_failures_are_answered_500 (rt : route) :
  exists message prefix,
  forall lib net float_truth credential base tmo op rs rq e,
    first_call rt = Some op ->
    last (calls (run lib net op (service_state lib credential base tmo rs)).2)
    = Some rq ->
    net (r_calls rs) rq = GetRaises e ->
    isinstance lib e HTTPError = false ->
    isinstance lib e RequestException = true ->
    exists detail,
      handle lib net float_truth (configured credential base tmo) rt rs
      = (ROk (error_response message 500),
         {| r_calls := (r_calls rs ++ [rq])%list;
            app_log := (app_log rs ++ [prefix +:+ detail])%list |}) /\
      (detail = exc_msg exc_timed_out \/
       detail = exc_msg (exc_connect_failed (exc_msg e))).
Proof.
  destruct (handle_when_the_first_call_raises rt) as (message & prefix & H).
  exists message, prefix.
  intros lib net float_truth credential base tmo op rs rq e
    Hop Hlast Hnet Hh Hr.
  destruct (run_on_network_failure lib net op _ rq e Hlast Hnet Hh Hr)
    as (Hstate & e' & Hraise & Hcls & Hwhich).
  exists (exc_msg e'). split.
  - rewrite (H _ _ _ _ _ _ _ _ _ Hop Hraise).
    assert (isinstance lib e' ValueError = false) as ->.
    { unfold isinstance. by rewrite Hcls. }
    by rewrite andb_false_r, Hstate.
  - by destruct Hwhich as [->| ->]; [left|right].
Qed.

(** X12. A handler that passes the answer through returns status 200
    and the decoded upstream body, unchanged, as [data], after exactly
    one call and without logging ([get_clan_members], which reshapes the
    body, apart). *)
Theorem upstream_body_is_passed_through (rt : route)
    lib net float_truth credential base tmo op rs rq r payload :
  passes_through rt = true ->
  (forall t, rt <> Clans_get_clan_members t) ->
  first_call rt = Some op ->
  last (calls (run lib net op (service_state lib credential base tmo rs)).2)
  = Some rq ->
  net (r_calls rs) rq = GetReturns r ->
  ~ (400 <= status_code r < 600) ->
  resp_json r = inr payload ->
  handle lib net float_truth (configured credential base tmo) rt rs
  = (ROk {| http_body :=
              JObj (<["success" := JBool true]> {["data" := payload]});
            http_status := 200 |},
     {| r_calls := (r_calls rs ++ [rq])%list; app_log := app_log rs |}).
Proof.
  intros Hpass Hrt Hop Hlast Hnet Hstatus Hbody.
  assert (forall t, op <> Call_get_clan_members t) as Hnot.
  { intros t ->. destruct rt; simpl in Hop; repeat case_match; simplify_eq.
    by destruct (Hrt t). }
  pose proof (run_on_success lib net op _ rq r payload Hnot Hlast Hnet
                Hstatus Hbody) as Hrun.
  rewrite (handle_when_the_call_returns rt _ _ _ _ _ _ op rs payload Hpass Hop)
    by (by rewrite Hrun).
  by rewrite Hrun.
Qed.

(** X13. In the player and clan handlers, a body that is not JSON under
    a status outside 400-599 is answered according to the [requests]
    release: 500 and the fixed message where the decoding error is a
    [RequestException], 400 and the decoder's message where it is only
    a [ValueError]. *)
Theorem undecodable_body_answer_depends_on_the_library (rt : route) :
  exists message,
  forall lib net float_truth credential base tmo op rs rq r m,
    reports_value_errors rt = true ->
    first_call rt = Some op ->
    last (calls (run lib net op (service_state lib credential base tmo rs)).2)
    = Some rq ->
    net (r_calls rs) rq = GetReturns r ->
    ~ (400 <= status_code r < 600) ->
    resp_json r = inl m ->
    (handle lib net float_truth (configured credential base tmo) rt rs).1
    = ROk (if json_error_is_request_exception lib
           then error_response message 500
           else error_response m 400).
Proof.
  destruct (handle_when_the_first_call_raises rt) as (message & prefix & H).
  exists message.
  intros lib net float_truth credential base tmo op rs rq r m
    Hrep Hop Hlast Hnet Hstatus Hbody.
  destruct (run_on_undecodable_body lib net op _ rq r m Hlast Hnet Hstatus
              Hbody) as [Hstate Hraise].
  rewrite (H _ _ _ _ _ _ _ _ _ Hop Hraise), Hrep.
  unfold isinstance, issubclass.
  by destruct (json_error_is_request_exception lib) eqn:Hflag.
Qed.

(** ** The current deck *)

Section CurrentDeck.

Context (lib : RequestsLib) (net : Network) (float_truth : string -> bool).

Implicit Types (rs : rstate) (v : json).

(** The handler once the battle log has come back. *)
Lemma current_deck_after_the_call credential base tmo tag rs v st1 :
  get_player_battle_log lib net tag (service_state lib credential base tmo rs)
  = (Ok v, st1) ->
  PlayerRoutes.current_deck_body lib net float_truth
    (configured credential base tmo) tag rs
  = (no_battles <-
       (if negb (py_truthy float_truth v) then rret true
        else if negb (is_list v) then rret true
        else n <- py_len v ;; rret (n =? 0)) ;;
     if no_battles : bool then
       rret {| http_body :=
                 JObj (<["success" := JBool true]>
                         (<["data" := JArr []]>
                            {["message" :=
                                JStr "No recent battles found for this player"]}));
               http_status := 200 |}
     else
       most_recent_battle <- py_first v ;;
       team <- py_get most_recent_battle "team" (JArr []) ;;
       no_team <-
         (if negb (py_truthy float_truth team) then rret true
          else n <- py_len team ;; rret (n =? 0)) ;;
       if no_team : bool then
         rret (error_response "No team data found in the most recent battle" 404)
       else
         player_data <- py_first team ;;
         deck <- py_get player_data "cards" (JArr []) ;;
         battle_time <- py_get most_recent_battle "battleTime" JNull ;;
         battle_type <- py_get most_recent_battle "type" JNull ;;
         game_mode <- py_get most_recent_battle "gameMode" (JObj ∅) ;;
         game_mode_name <- py_get game_mode "name" JNull ;;
         rret {| http_body :=
                   JObj (<["success" := JBool true]>
                           (<["data" := deck]>
                              (<["battleTime" := battle_time]>
                                 (<["battleType" := battle_type]>
                                    {["gameMode" := game_mode_name]}))));
                 http_status := 200 |})
      (after_service rs st1).
Proof.
  intros Hcall. unfold PlayerRoutes.current_deck_body.
  unfold rbind at 1. rewrite service_is_built. cbv beta iota.
  unfold rbind at 1. rewrite call_result.
  fold (service_state lib credential base tmo rs). by rewrite Hcall.
Qed.

Lemma rbind_rret {A B} (a : A) (k : A -> R B) : rbind (rret a) k = k a.
Proof. reflexivity. Qed.

Lemma rbind_rraise {A B} (e : py_exc) (k : A -> R B) :
  rbind (rraise e) k = rraise e.
Proof. reflexivity. Qed.

Lemma py_get_object (fields : gmap string json) (key : string) (d : json) :
  py_get (JObj fields) key d = rret (default d (fields !! key)).
Proof. reflexivity. Qed.

(** The two emptiness tests of the handler let a non-empty list pass. *)
Lemma nonempty_list_is_kept (first : json) (rest : list json)
    (K : bool -> R HttpResponse) :
  (no_battles <-
     (if negb (py_truthy float_truth (JArr (first :: rest))) then rret true
      else if negb (is_list (JArr (first :: rest))) then rret true
      else n <- py_len (JArr (first :: rest)) ;; rret (n =? 0)) ;;
   K no_battles) = K false.
Proof. reflexivity. Qed.

Lemma nonempty_team_is_kept (first : json) (rest : list json)
    (K : bool -> R HttpResponse) :
  (no_team <-
     (if negb (py_truthy float_truth (JArr (first :: rest))) then rret true
      else n <- py_len (JArr (first :: rest)) ;; rret (n =? 0)) ;;
   K no_team) = K false.
Proof. reflexivity. Qed.

(** X14. [get_current_deck] answers 200 with an empty deck and a
    message whenever the battle log is anything but a non-empty list:
    an empty list, an object, a string, a number or null. *)
Theorem current_deck_is_empty_without_battles credential base tmo tag rs v :
  (get_player_battle_log lib net tag
     (service_state lib credential base tmo rs)).1 = Ok v ->
  (forall first rest, v <> JArr (first :: rest)) ->
  PlayerRoutes.get_current_deck lib net float_truth
    (configured credential base tmo) tag rs
  = (ROk {| http_body :=
              JObj (<["success" := JBool true]>
                      (<["data" := JArr []]>
                         {["message" :=
                             JStr "No recent battles found for this player"]}));
            http_status := 200 |},
     after_service rs
       (get_player_battle_log lib net tag
          (service_state lib credential base tmo rs)).2).
Proof.
  intros Hcall Hshape.
  destruct (get_player_battle_log lib net tag _) as [[v'|e] st1] eqn:Hrun;
    simpl in Hcall; [|done]. injection Hcall as ->.
  unfold PlayerRoutes.get_current_deck, rcatch.
  rewrite (current_deck_after_the_call _ _ _ _ _ v st1 Hrun).
  destruct v as [|b|n|literal|s|items|fields]; simpl.
  - done.
  - by destruct b.
  - by destruct (n =? 0).
  - by destruct (float_truth literal).
  - by destruct s.
  - destruct items as [|first rest]; [done|]. by destruct (Hshape first rest).
  - by destruct (Nat.eqb (size fields) 0).
Qed.

(** X15. When the most recent battle is an object whose [team] is absent
    or falsy (null, empty, zero, false), [get_current_deck] answers 404
    with its own message, whatever the other battles hold. *)
Theorem current_deck_needs_a_team credential base tmo tag rs battle rest :
  (get_player_battle_log lib net tag
     (service_state lib credential base tmo rs)).1
  = Ok (JArr (JObj battle :: rest)) ->
  py_truthy float_truth (default (JArr []) (battle !! "team")) = false ->
  (PlayerRoutes.get_current_deck lib net float_truth
     (configured credential base tmo) tag rs).1
  = ROk (error_response "No team data found in the most recent battle" 404).
Proof.
  intros Hcall Hteam.
  destruct (get_player_battle_log lib net tag _) as [[v'|e] st1] eqn:Hrun;
    simpl in Hcall; [|done]. injection Hcall as ->.
  unfold PlayerRoutes.get_current_deck, rcatch.
  rewrite (current_deck_after_the_call _ _ _ _ _ _ st1 Hrun).
  rewrite nonempty_list_is_kept. cbv iota.
  cbn [py_first]. rewrite rbind_rret, py_get_object, rbind_rret.
  rewrite Hteam. cbn [negb]. by rewrite rbind_rret.
Qed.

(** X16. When the most recent battle is an object whose [team] is a list
    starting with an object, [get_current_deck] answers 200 with that
    player's [cards] (the empty list when absent) and the battle's
    [battleTime], [type] and game mode name (null when absent). The
    other battles and the other team members play no part. *)
Theorem current_deck_is_read_off_the_latest_battle
    credential base tmo tag rs battle rest player others mode :
  (get_player_battle_log lib net tag
     (service_state lib credential base tmo rs)).1
  = Ok (JArr (JObj battle :: rest)) ->
  battle !! "team" = Some (JArr (JObj player :: others)) ->
  default (JObj ∅) (battle !! "gameMode") = JObj mode ->
  (PlayerRoutes.get_current_deck lib net float_truth
     (configured credential base tmo) tag rs).1
  = ROk {| http_body :=
             JObj (<["success" := JBool true]>
                     (<["data" := default (JArr []) (player !! "cards")]>
                        (<["battleTime" :=
                             default JNull (battle !! "battleTime")]>
                           (<["battleType" := default JNull (battle !! "type")]>
                              {["gameMode" :=
                                  default JNull (mode !! "name")]}))));
           http_status := 200 |}.
Proof.
  intros Hcall Hteam Hmode.
  destruct (get_player_battle_log lib net tag _) as [[v'|e] st1] eqn:Hrun;
    simpl in Hcall; [|done]. injection Hcall as ->.
  unfold PlayerRoutes.get_current_deck, rcatch.
  rewrite (current_deck_after_the_call _ _ _ _ _ _ st1 Hrun).
  rewrite nonempty_list_is_kept. cbv iota.
  cbn [py_first]. rewrite rbind_rret, py_get_object, rbind_rret.
  rewrite Hteam. cbn [from_option id].
  rewrite nonempty_team_is_kept. cbv iota.
  cbn [py_first]. rewrite rbind_rret, !py_get_object, !rbind_rret.
  rewrite Hmode, py_get_object, rbind_rret. reflexivity.
Qed.

(** X17. A battle log of the wrong shape is answered with 500 under one
    of two messages: the fixed one when the most recent battle is not
    an object, the one about the battle data when its [team] is a
    number other than zero. *)
Theorem current_deck_rejects_other_shapes
    credential base tmo tag rs first rest :
  (get_player_battle_log lib net tag
     (service_state lib credential base tmo rs)).1
  = Ok (JArr (first :: rest)) ->
  match first with
  | JObj battle =>
      forall n, battle !! "team" = Some (JNum n) -> n <> 0 ->
      (PlayerRoutes.get_current_deck lib net float_truth
         (configured credential base tmo) tag rs).1
      = ROk (error_response
               "Failed to extract deck from battle log. Battle data structure may be invalid."
               500)
  | _ =>
      (PlayerRoutes.get_current_deck lib net float_truth
         (configured credential base tmo) tag rs).1
      = ROk (error_response
               "An unexpected error occurred while fetching current deck" 500)
  end.
Proof.
  intros Hcall.
  destruct (get_player_battle_log lib net tag _) as [[v'|e] st1] eqn:Hrun;
    simpl in Hcall; [|done]. injection Hcall as ->.
  unfold PlayerRoutes.get_current_deck, rcatch.
  rewrite (current_deck_after_the_call _ _ _ _ _ _ st1 Hrun).
  rewrite nonempty_list_is_kept. cbv iota.
  cbn [py_first]. rewrite rbind_rret.
  destruct first as [|b|n|literal|s|items|battle]; try reflexivity.
  intros n Hteam Hn.
  rewrite py_get_object, rbind_rret, Hteam. cbn [from_option id py_truthy].
  destruct (n =? 0) eqn:Hz; [lia|]. reflexivity.
Qed.

End CurrentDeck.

(** ** The card handlers *)

Section CardHandlers.

Context (lib : RequestsLib) (net : Network).

Implicit Types (rs : rstate) (cards : list json).

Lemma never_returns_rraise {A} (e : py_exc) : never_returns (rraise (A := A) e).
Proof. intros rs. by exists e. Qed.

Lemma never_returns_rbind {A B} (m : R A) (k : A -> R B) (P : A -> Prop) :
  (forall rs a, (m rs).1 = ROk a -> P a) ->
  (forall a, P a -> never_returns (k a)) ->
  never_returns (rbind m k).
Proof.
  intros Hm Hk rs. unfold rbind.
  destruct (m rs) as [[a|e] rs1] eqn:Hrun; [|by exists e].
  apply Hk, (Hm rs). by rewrite Hrun.
Qed.

(** The loop of [get_card_info] leaves [searched_card] unbound or bound
    to an object. *)
Lemma search_card_finds_objects name cards (found : option json) rs result :
  (found = None \/ exists fields, found = Some (JObj fields)) ->
  (CardRoutes.search_card name cards found rs).1 = ROk result ->
  result = None \/ exists fields, result = Some (JObj fields).
Proof.
  revert found rs. induction cards as [|card rest IH]; intros found rs Hfound.
  - simpl. by intros [= <-].
  - simpl. destruct card as [| | | | | |fields]; try done.
    rewrite py_get_object, rbind_rret.
    destruct (default (JStr "") (fields !! "name")) as [| | | |s| |]; try done.
    cbn [py_lower]. rewrite rbind_rret. apply IH.
    case_bool_decide; [right; by eexists|done].
Qed.

(** X18. [get_card_info] never succeeds: whatever the configuration, the
    network and the name, it answers 500 with its fixed message. A card
    that matches is put in a set display, which cannot hold an object;
    without a match the local it reads is unbound. *)
Theorem card_info_always_answers_500 (cfg : AppConfig) (name : string) rs :
  (CardRoutes.get_card_info lib net cfg name rs).1
  = ROk (error_response
           "An unexpected error occurred while fetching card info" 500).
Proof.
  unfold CardRoutes.get_card_info, rcatch.
  match goal with
  | |- context [let (r, rs') := ?body rs in _] =>
      assert (never_returns body) as Hnever
  end.
  { apply (never_returns_rbind _ _ (fun _ => True)); [done|intros service _].
    apply (never_returns_rbind _ _ (fun _ => True)); [done|intros [? cards_data] _].
    apply (never_returns_rbind _ _ (fun _ => True)); [done|intros items _].
    apply (never_returns_rbind _ _ (fun _ => True)); [done|intros all_cards _].
    apply (never_returns_rbind _ _
             (fun found => found = None \/ exists fields, found = Some (JObj fields))).
    - intros rs0 result. apply search_card_finds_objects. by left.
    - intros found [->|[fields ->]]; [apply never_returns_rraise|].
      intros rs0. by eexists. }
  destruct (Hnever rs) as [e He].
  match goal with
  | |- context [let (r, rs') := ?body rs in _] =>
      destruct (body rs) as [[resp|e'] rs1]; simpl in He; [done|]
  end.
  reflexivity.
Qed.

End CardHandlers.

Section RarityFilter.

Context (lib : RequestsLib) (net : Network).

Implicit Types (rs : rstate) (cards kept : list json) (rarity : string).


(** A card it cannot read stops the comprehension. *)
Lemma filtered_cards_of_unreadable_card rarity cards rs :
  Exists (fun card => ~ has_rarity_text card) cards ->
  exists e, CardRoutes.filtered_cards rarity cards rs = (RRaise e, rs).
Proof.
  induction cards as [|card rest IH]; intros Hbad; [by inversion Hbad|].
  cbn [CardRoutes.filtered_cards].
  destruct card as [| | | | | |fields]; try by eexists.
  rewrite py_get_object, rbind_rret.
  destruct (default (JStr "") (fields !! "rarity")) as [| | | |s| |] eqn:Hs;
    try by eexists.
  cbn [py_lower]. rewrite rbind_rret. unfold rbind at 1.
  destruct IH as [e ->]; [|by eexists].
  inversion Hbad as [? ? Hhead|]; [|done].
  destruct Hhead. by exists fields, s.
Qed.

(** Runs the handler up to the comprehension. *)
Ltac enter_cards_by_rarity Hrun Hitems :=
  unfold CardRoutes.get_cards_by_rarity, rcatch;
  unfold rbind at 1; rewrite service_is_built; cbv beta iota;
  unfold rbind at 1; rewrite call_result, Hrun; cbv beta iota;
  rewrite py_get_object, rbind_rret, Hitems; cbn [from_option id py_iter];
  rewrite rbind_rret; unfold rbind at 1.


(** X20. One card that is not an object, or whose [rarity] is not a
    string, fails the whole listing: [get_cards_by_rarity] answers 500
    with its fixed message, whatever rarity is asked for. *)
Theorem cards_by_rarity_fails_on_one_unreadable_card
    credential base tmo rarity rs fields cards :
  (get_cards lib net (service_state lib credential base tmo rs)).1
  = Ok (JObj fields) ->
  fields !! "items" = Some (JArr cards) ->
  Exists (fun card => ~ has_rarity_text card) cards ->
  (CardRoutes.get_cards_by_rarity lib net (configured credential base tmo)
     rarity rs).1
  = ROk (error_response "An unexpected error occurred while fetching cards" 500).
Proof.
  intros Hcall Hitems Hcards.
  unfold service_state in Hcall.
  destruct (get_cards lib net _) as [[v|e] st1] eqn:Hrun;
    simpl in Hcall; [|done]. injection Hcall as ->.
  destruct (filtered_cards_of_unreadable_card rarity cards
              (after_service rs st1) Hcards) as (e & He).
  enter_cards_by_rarity Hrun Hitems. by rewrite He.
Qed.

Lemma filtered_cards_ignores_case rarity cards rs :
  isascii rarity = true ->
  CardRoutes.filtered_cards (upper rarity) cards rs
  = CardRoutes.filtered_cards rarity cards rs.
Proof.
  intros Hrarity.
  revert rs. induction cards as [|card rest IH]; intros rs; [done|].
  cbn [CardRoutes.filtered_cards].
  destruct card as [| | | | | |fields]; try done.
  rewrite !py_get_object, !rbind_rret.
  destruct (default (JStr "") (fields !! "rarity")) as [| | | |s| |];
    try done.
  cbn [py_lower]. rewrite !rbind_rret. unfold rbind.
  by rewrite IH, lower_upper.
Qed.

(** X21. A rarity of ASCII characters is compared case apart: asking
    for it in upper case changes no answer of [get_cards_by_rarity],
    whatever the configuration and the network. *)
Theorem cards_by_rarity_ignores_the_case_asked (cfg : AppConfig) rarity rs :
  isascii rarity = true ->
  (CardRoutes.get_cards_by_rarity lib net cfg (upper rarity) rs).1
  = (CardRoutes.get_cards_by_rarity lib net cfg rarity rs).1.
Proof.
  intros Hrarity.
  unfold CardRoutes.get_cards_by_rarity, rcatch, rbind.
  destruct (get_clash_royale_service lib cfg rs) as [[service|e] rs1]; [|done].
  destruct (call service (get_cards lib net) rs1) as [[[service' data]|e] rs2];
    [|done].
  destruct (py_get data "items" (JArr []) rs2) as [[items|e] rs3]; [|done].
  destruct (py_iter items rs3) as [[all_cards|e] rs4]; [|done].
  rewrite (filtered_cards_ignores_case _ _ _ Hrarity).
  by destruct (CardRoutes.filtered_cards rarity all_cards rs4) as [[kept|e] rs5].
Qed.

End RarityFilter.

(** ** Tournaments, player statistics and the configuration *)

Section OtherHandlers.

Context (lib : RequestsLib) (net : Network) (float_truth : string -> bool).

Implicit Types (rs : rstate) (cfg : AppConfig).

(** X22. Without a [name] argument, or with an empty one,
    [search_tournaments] answers 400 at once: no client is built, no
    call is placed and nothing is logged, whatever the configuration. *)
Theorem tournament_search_requires_a_name cfg (args : gmap string string) rs :
  args !! "name" = None \/ args !! "name" = Some "" ->
  TournamentRoutes.search_tournaments lib net cfg args rs
  = (ROk (error_response
            "Tournament name is required. Use ?name=<tournament_name>" 400),
     rs).
Proof.
  intros [Hname|Hname]; unfold TournamentRoutes.search_tournaments, rcatch;
    by rewrite Hname.
Qed.

(** The URL of the battle log call is that of the player call with
    [/battlelog] appended. *)
Lemma battle_log_url st (ptag : string) :
  req_url (wire_request st ("players/" +:+ ptag +:+ "/battlelog") None)
  = req_url (wire_request st ("players/" +:+ ptag) None) +:+ "/battlelog".
Proof.
  rewrite !(app_String "p"), !wire_url_plain by done.
  rewrite <- !app_String. by rewrite !app_assoc_str.
Qed.

Lemma player_stats_result credential base tmo tag rs info st1 :
  get_player_info lib net tag (service_state lib credential base tmo rs)
  = (Ok (JObj info), st1) ->
  PlayerRoutes.get_player_stats lib net (configured credential base tmo) tag rs
  = match get_player_battle_log lib net tag st1 with
    | (Ok _, st2) =>
        (ROk (success_response
              (JObj (<["player_tag" := default JNull (info !! "tag")]>
                (<["player_name" := default JNull (info !! "name")]>
                (<["current_trophies" := default JNull (info !! "trophies")]>
                (<["best_trophies" := default JNull (info !! "bestTrophies")]>
                (<["total_battles" := default (JNum 0) (info !! "battleCount")]>
                (<["total_wins" := default (JNum 0) (info !! "wins")]>
                   {["total_losses" :=
                       default (JNum 0) (info !! "losses")]})))))))),
         after_service rs st2)
    | (Raise e, st2) =>
        if isinstance lib e ValueError then
          (ROk (error_response (exc_msg e) 400), after_service rs st2)
        else
          (ROk (error_response
                  "An unexpected error occurred while fetching player stats" 500),
           {| r_calls := calls st2;
              app_log := (app_log rs ++
                 ["Error fetching stats for " +:+ tag +:+ ": " +:+ exc_msg e])%list |})
    end.
Proof.
  intros Hrun1. unfold PlayerRoutes.get_player_stats, rcatch.
  unfold rbind at 1. rewrite service_is_built. cbv beta iota.
  unfold rbind at 1. rewrite call_result.
  fold (service_state lib credential base tmo rs). rewrite Hrun1. cbv beta iota.
  unfold rbind at 1. rewrite call_result.
  unfold after_service at 1. cbn [r_calls].
  assert ({| self := self st1; calls := calls st1 |} = st1) as -> by (by destruct st1).
  destruct (get_player_battle_log lib net tag st1) as [[log|e] st2] eqn:Hrun2.
  - cbv beta iota. rewrite !py_get_object, !rbind_rret. reflexivity.
  - cbv beta iota. unfold py_isinstance, of_lib, py_issubclass. cbn [py_cls py_msg exc_cls].
    fold (isinstance lib e ValueError).
    by destruct (isinstance lib e ValueError).
Qed.

(** X23. [get_player_stats] places two calls, for the player and then
    for the battle log. When the player comes back as an object and the
    battle log call returns, the answer is 200 with statistics read off
    the player alone: absent counts are 0, the other absent fields null.
    When the battle log call raises, the handler does not answer 200,
    although nothing of the battle log is used. *)
Theorem player_stats_places_two_calls credential base tmo tag rs info st1 :
  get_player_info lib net tag (service_state lib credential base tmo rs)
  = (Ok (JObj info), st1) ->
  (exists rq1 rq2,
     r_calls (PlayerRoutes.get_player_stats lib net
                (configured credential base tmo) tag rs).2
     = (r_calls rs ++ [rq1; rq2])%list /\
     req_url rq2 = req_url rq1 +:+ "/battlelog") /\
  (forall data st2,
     get_player_battle_log lib net tag st1 = (Ok data, st2) ->
     (PlayerRoutes.get_player_stats lib net
        (configured credential base tmo) tag rs).1
     = ROk (success_response
              (JObj (<["player_tag" := default JNull (info !! "tag")]>
                (<["player_name" := default JNull (info !! "name")]>
                (<["current_trophies" := default JNull (info !! "trophies")]>
                (<["best_trophies" := default JNull (info !! "bestTrophies")]>
                (<["total_battles" := default (JNum 0) (info !! "battleCount")]>
                (<["total_wins" := default (JNum 0) (info !! "wins")]>
                   {["total_losses" :=
                       default (JNum 0) (info !! "losses")]}))))))))) /\
  (forall e st2,
     get_player_battle_log lib net tag st1 = (Raise e, st2) ->
     exists resp,
       (PlayerRoutes.get_player_stats lib net
          (configured credential base tmo) tag rs).1 = ROk resp /\
       http_status resp <> 200).
Proof.
  intros Hrun1. rewrite (player_stats_result _ _ _ _ _ _ _ Hrun1).
  pose proof (make_request_state lib net) as Hstate.
  assert (st1 = after_call (service_state lib credential base tmo rs)
                  ("players/" +:+ (if startswith tag "#"
                                   then "%23" +:+ slice_from 1 tag
                                   else "%23" +:+ tag)) None) as Hst1.
  { change st1 with (Ok (JObj info), st1).2. rewrite <- Hrun1. apply Hstate. }
  assert ((get_player_battle_log lib net tag st1).2
          = after_call st1
              ("players/" +:+ (if startswith tag "#"
                               then "%23" +:+ slice_from 1 tag
                               else "%23" +:+ tag) +:+ "/battlelog") None)
    as Hst2 by apply Hstate.
  assert (exists rq1 rq2,
            calls (get_player_battle_log lib net tag st1).2
            = (r_calls rs ++ [rq1; rq2])%list /\
            req_url rq2 = req_url rq1 +:+ "/battlelog") as Hcalls.
  { eexists _, _. rewrite Hst2. unfold after_call at 1. cbn [calls].
    rewrite Hst1 at 1. unfold after_call at 1. cbn [calls service_state].
    rewrite <- app_assoc. split; [reflexivity|].
    rewrite Hst1. unfold after_call, wire_request, prepare_request.
    cbn [self session base_url req_url].
    apply (battle_log_url (service_state lib credential base tmo rs)). }
  destruct (get_player_battle_log lib net tag st1) as [[log|e] st2].
  - split; [exact Hcalls|]. split; [by intros data st2' [= <- <-]|done].
  - split; [|split; [done|]].
    + by destruct (isinstance lib e ValueError).
    + intros e' st2' [= <- <-].
      destruct (isinstance lib e ValueError); by eexists.
Qed.

End OtherHandlers.

(** ** The configuration *)

Section Configuration.

Context (lib : RequestsLib) (net : Network) (float_truth : string -> bool).

Implicit Types (rs : rstate) (cfg : AppConfig) (s chars : string) (a : ascii).

Lemma service_is_not_built cfg rs :
  CLASH_ROYALE_API_KEY cfg = None \/ CLASH_ROYALE_API_BASE_URL cfg = None ->
  exists key,
    get_clash_royale_service lib cfg rs = (RRaise (PyExc KeyError key), rs).
Proof.
  unfold get_clash_royale_service, rbind, config_item, rraise.
  intros [Hkey|Hbase].
  - rewrite Hkey. by eexists.
  - rewrite Hbase. destruct (CLASH_ROYALE_API_KEY cfg); by eexists.
Qed.

(** X24. When the configuration lacks the key or the base URL, a handler
    that needs the service answers 500, places no call and logs the
    [KeyError]. *)
Theorem missing_configuration_is_answered_500 cfg (rt : route) rs :
  CLASH_ROYALE_API_KEY cfg = None \/ CLASH_ROYALE_API_BASE_URL cfg = None ->
  is_Some (first_call rt) ->
  exists resp line,
    handle lib net float_truth cfg rt rs
    = (ROk resp, {| r_calls := r_calls rs;
                    app_log := (app_log rs ++ [line])%list |}) /\
    http_status resp = 500.
Proof.
  intros Hcfg Hcall.
  destruct (service_is_not_built cfg rs Hcfg) as [key Hraise].
  destruct rt as [t|t|t|t|t|t|t|t| |r|n|args|s]; simpl in Hcall;
    try (destruct (args !! "name") as [[|a name]|] eqn:Hname;
         try (by destruct Hcall));
    unfold handle, PlayerRoutes.get_player, PlayerRoutes.get_player_battle_log,
      PlayerRoutes.get_current_deck, PlayerRoutes.current_deck_body,
      PlayerRoutes.get_player_stats, ClanRoutes.get_clan,
      ClanRoutes.get_clan_members, ClanRoutes.get_clan_war_log,
      ClanRoutes.get_clan_current_war, CardRoutes.get_all_cards,
      CardRoutes.get_cards_by_rarity, CardRoutes.get_card_info,
      TournamentRoutes.search_tournaments,
      LeaderboardRoutes.get_pol_leaderboard;
    unfold rcatch; rewrite ?Hname; cbv beta iota; unfold rbind at 1;
    rewrite Hraise; by eexists _, _.
Qed.

End Configuration.

(** ** The API key file *)

Section ApiKey.

Implicit Types (s chars : string) (a : ascii).

Lemma lstrip_first chars s a :
  first_char (lstrip chars s) = Some a -> mem_char a chars = false.
Proof.
  induction s as [|b s IH]; [done|]. simpl.
  destruct (mem_char b chars) eqn:Hb; [done|]. simpl. by intros [= <-].
Qed.

Lemma rstrip_last chars s a :
  last_char (rstrip chars s) = Some a -> mem_char a chars = false.
Proof.
  induction s as [|b s IH]; [done|]. simpl.
  destruct (rstrip chars s) as [|c kept].
  - destruct (mem_char b chars) eqn:Hb; [done|]. simpl. by intros [= <-].
  - exact IH.
Qed.

Lemma last_char_lstrip chars s :
  lstrip chars s <> "" -> last_char (lstrip chars s) = last_char s.
Proof.
  induction s as [|b s IH]; [done|]. simpl.
  destruct (mem_char b chars); [|done].
  intros Hne. rewrite (IH Hne). destruct s; [done|done].
Qed.

Lemma lstrip_fixed chars s :
  (forall a, first_char s = Some a -> mem_char a chars = false) ->
  lstrip chars s = s.
Proof. destruct s as [|b s]; [done|]. intros H. simpl. by rewrite (H b). Qed.

Lemma rstrip_fixed chars s :
  (forall a, last_char s = Some a -> mem_char a chars = false) ->
  rstrip chars s = s.
Proof.
  induction s as [|b s IH]; [done|]. intros H. simpl.
  destruct s as [|c s].
  - simpl. by rewrite (H b).
  - rewrite IH by exact H. done.
Qed.

(** What [strip] returns neither starts nor ends with white space, and
    stripping it again changes nothing. *)
Lemma strip_is_clean s :
  (forall a, first_char (strip s) = Some a -> mem_char a whitespace = false) /\
  (forall a, last_char (strip s) = Some a -> mem_char a whitespace = false) /\
  strip (strip s) = strip s.
Proof.
  assert (forall a, first_char (strip s) = Some a ->
                    mem_char a whitespace = false) as Hfirst
    by (intros a; apply lstrip_first).
  assert (forall a, last_char (strip s) = Some a ->
                    mem_char a whitespace = false) as Hlast.
  { intros a Ha. unfold strip in Ha.
    destruct (decide (lstrip whitespace (rstrip whitespace s) = "")) as [He|Hne].
    - by rewrite He in Ha.
    - rewrite last_char_lstrip in Ha by done. by apply rstrip_last in Ha. }
  split; [done|]. split; [done|].
  unfold strip at 1. rewrite (rstrip_fixed _ _ Hlast). by apply lstrip_fixed.
Qed.

(** X25. A key that [get_api_key] returns is the content of the file
    without the white space around it: it is not empty, not the
    placeholder, neither starts nor ends with white space (so no
    newline of the file reaches the [Authorization] header), and a file
    holding just that key is read as that key. *)
Theorem api_key_is_stripped_and_real (path : string) (file : option string)
    (key : string) :
  Config.get_api_key path file = ROk key ->
  (exists content, file = Some content /\ key = strip content) /\
  key <> "" /\
  key <> Config.placeholder /\
  (forall a, first_char key = Some a -> mem_char a whitespace = false) /\
  (forall a, last_char key = Some a -> mem_char a whitespace = false) /\
  Config.get_api_key path (Some key) = ROk key.
Proof.
  unfold Config.get_api_key. destruct file as [content|]; [|done].
  destruct (bool_decide (strip content = "")) eqn:Hempty; [done|].
  destruct (bool_decide (strip content = Config.placeholder)) eqn:Hplace;
    [done|].
  simpl. intros [= <-].
  destruct (strip_is_clean content) as (Hfirst & Hlast & Hidem).
  split; [by eexists|].
  split; [by apply bool_decide_eq_false in Hempty|].
  split; [by apply bool_decide_eq_false in Hplace|].
  split; [done|]. split; [done|].
  by rewrite Hidem, Hempty, Hplace.
Qed.

(** X26. Without the file, with an empty or blank file, or with the
    placeholder (white space around it or not), [get_api_key] raises:
    [FileNotFoundError] for the missing file, [ValueError] otherwise. *)
Theorem api_key_rejects_missing_blank_and_placeholder
    (path : string) (file : option string) :
  match file with
  | None =>
      exists message,
        Config.get_api_key path file = RRaise (PyExc FileNotFoundError message)
  | Some content =>
      strip content = "" \/ strip content = Config.placeholder ->
      exists message,
        Config.get_api_key path file = RRaise (PyExc (Lib ValueError) message)
  end.
Proof.
  destruct file as [content|]; [|by eexists].
  unfold Config.get_api_key. intros [He|Hp].
  - rewrite He. by eexists.
  - rewrite Hp. by eexists.
Qed.

End ApiKey.

(** ** Every handler answers *)

Section EveryHandlerAnswers.

Context (lib : RequestsLib) (net : Network) (float_truth : string -> bool).

Implicit Types (rs : rstate) (cfg : AppConfig) (resp : HttpResponse).

Lemma well_formed_success (data : json) : well_formed (success_response data).
Proof.
  split; [apply list_elem_of_here|].
  eexists. split; [reflexivity|]. by rewrite lookup_insert_eq.
Qed.

Lemma well_formed_error (message : string) (code : Z) :
  code ∈ [400; 404; 500] -> well_formed (error_response message code).
Proof.
  intros Hcode. split; [by apply list_elem_of_further|].
  eexists. split; [reflexivity|]. rewrite lookup_insert_eq.
  cbn [http_status error_response].
  rewrite bool_decide_eq_false_2; [done|].
  intros ->. repeat (apply elem_of_cons in Hcode as [Hcode|Hcode]; [done|]).
  by apply elem_of_nil in Hcode.
Qed.

Lemma answers_rret resp : well_formed resp -> answers (rret resp).
Proof. by intros H rs. Qed.

Lemma answers_rraise e : answers (rraise e).
Proof. by intros rs. Qed.

Lemma answers_rbind {A} (m : R A) (k : A -> R HttpResponse) :
  (forall a, answers (k a)) -> answers (rbind m k).
Proof.
  intros Hk rs. unfold rbind.
  destruct (m rs) as [[a|e] rs1]; [apply Hk|done].
Qed.

Lemma always_answers_rret resp : well_formed resp -> always_answers (rret resp).
Proof. intros H rs. by exists resp. Qed.

Lemma always_answers_logged line resp :
  well_formed resp ->
  always_answers (_ <- logger_error line ;; rret resp).
Proof. intros H rs. by exists resp. Qed.

Lemma always_answers_rcatch (body : R HttpResponse)
    (handler : py_exc -> R HttpResponse) :
  answers body -> (forall e, always_answers (handler e)) ->
  always_answers (rcatch body handler).
Proof.
  intros Hbody Hhandler rs. unfold rcatch.
  specialize (Hbody rs).
  destruct (body rs) as [[resp|e] rs1]; [by exists resp|apply Hhandler].
Qed.

(** Closes the goals the handlers leave: a response built in place, a
    raise, or a bind. *)
Ltac answer :=
  repeat first
    [ apply answers_rraise
    | apply answers_rret;
      first [ apply well_formed_success
            | apply well_formed_error; set_solver
            | split; [set_solver|eexists; split; [reflexivity|];
                                 by rewrite lookup_insert_eq] ]
    | apply answers_rbind; intros ?
    | match goal with
      | |- answers (let '(_, _) := ?p in _) => destruct p
      | |- answers (if ?b then _ else _) => destruct b
      | |- answers (match ?o with _ => _ end) => destruct o
      end ].

Ltac always_answer :=
  repeat first
    [ apply always_answers_rret; apply well_formed_error; set_solver
    | apply always_answers_logged; apply well_formed_error; set_solver
    | match goal with
      | |- always_answers (if ?b then _ else _) => destruct b
      end ].

(** X27. Every handler returns a response, whatever the configuration,
    the network and the arguments: it never lets an exception out. The
    status is 200, 400, 404 or 500, the body is an object, and its
    [success] field is true exactly when the status is 200. *)
Theorem every_handler_answers_well_formed cfg (rt : route) rs :
  exists resp,
    (handle lib net float_truth cfg rt rs).1 = ROk resp /\
    http_status resp ∈ [200; 400; 404; 500] /\
    exists fields,
      http_body resp = JObj fields /\
      fields !! "success" = Some (JBool (bool_decide (http_status resp = 200))).
Proof.
  revert rs. change (always_answers (handle lib net float_truth cfg rt)).
  destruct rt; cbn [handle];
    unfold PlayerRoutes.get_player, PlayerRoutes.get_player_battle_log,
      PlayerRoutes.get_current_deck, PlayerRoutes.current_deck_body,
      PlayerRoutes.get_player_stats, ClanRoutes.get_clan,
      ClanRoutes.get_clan_members, ClanRoutes.get_clan_war_log,
      ClanRoutes.get_clan_current_war, CardRoutes.get_all_cards,
      CardRoutes.get_cards_by_rarity, CardRoutes.get_card_info,
      TournamentRoutes.search_tournaments,
      LeaderboardRoutes.get_pol_leaderboard, CardRoutes.jsonify_set;
    (apply always_answers_rcatch; [answer|intros e; always_answer]).
Qed.

End EveryHandlerAnswers.

(** ** The calls of the handlers *)

Section HandlerCalls.

Context (lib : RequestsLib) (net : Network) (float_truth : string -> bool).
Context (credential base : string) (tmo : option Z).

Let P := configured_call credential base tmo.
Let client := __init__ lib credential base (Some (default 30 tmo)).

Implicit Types (rs : rstate).

Lemma places_rret {A} (a : A) : places P (rret a).
Proof. intros rs. exists []. by rewrite app_nil_r. Qed.

Lemma places_rraise {A} e : places P (rraise (A := A) e).
Proof. intros rs. exists []. by rewrite app_nil_r. Qed.

Lemma places_logger line : places P (logger_error line).
Proof. intros rs. exists []. by rewrite app_nil_r. Qed.

Lemma places_rbind_post {A B} (Q : A -> Prop) (m : R A) (k : A -> R B) :
  places P m ->
  (forall rs a, (m rs).1 = ROk a -> Q a) ->
  (forall a, Q a -> places P (k a)) ->
  places P (rbind m k).
Proof.
  intros Hm Hpost Hk rs. unfold rbind.
  destruct (Hm rs) as (more & Hmore & HP). specialize (Hpost rs).
  destruct (m rs) as [[a|e] rs1]; simpl in *.
  - destruct (Hk a (Hpost a eq_refl) rs1) as (more' & Hmore' & HP').
    exists (more ++ more')%list. rewrite Hmore', Hmore, app_assoc.
    split; [done|]. by apply Forall_app.
  - by exists more.
Qed.

Lemma places_rbind {A B} (m : R A) (k : A -> R B) :
  places P m -> (forall a, places P (k a)) -> places P (rbind m k).
Proof.
  intros Hm Hk. apply (places_rbind_post (fun _ => True)); by auto.
Qed.

Lemma places_rcatch {A} (m : R A) (handler : py_exc -> R A) :
  places P m -> (forall e, places P (handler e)) -> places P (rcatch m handler).
Proof.
  intros Hm Hh rs. unfold rcatch.
  destruct (Hm rs) as (more & Hmore & HP).
  destruct (m rs) as [[a|e] rs1]; simpl in *; [by exists more|].
  destruct (Hh e rs1) as (more' & Hmore' & HP').
  exists (more ++ more')%list. rewrite Hmore', Hmore, app_assoc.
  split; [done|]. by apply Forall_app.
Qed.

Lemma places_call {A} (service : ClashRoyaleService) (m : M A) :
  method_places P service m -> places P (call service m).
Proof.
  intros Hm rs. rewrite call_result.
  destruct (Hm {| self := service; calls := r_calls rs |} eq_refl)
    as (_ & sent & Hsent & HP).
  exists sent. by destruct (m _) as [[a|e] st].
Qed.

Lemma call_hands_back {A} (service : ClashRoyaleService) (m : M A) rs answer :
  method_places P service m ->
  (call service m rs).1 = ROk answer -> answer.1 = service.
Proof.
  intros Hm. rewrite call_result.
  destruct (Hm {| self := service; calls := r_calls rs |} eq_refl) as (Hself & _).
  destruct (m _) as [[a|e] st]; [|done]. by intros [= <-].
Qed.

Lemma request_places endpoint params :
  method_places P client (_make_request lib net endpoint params).
Proof.
  intros st Hself. rewrite make_request_state. split; [done|].
  exists [wire_request st endpoint params]. split; [done|].
  apply Forall_singleton. unfold wire_request, prepare_request.
  rewrite Hself. repeat split; cbn.
  - by rewrite lookup_insert_ne, lookup_insert_eq.
  - by eexists.
Qed.

Lemma clan_members_places t :
  method_places P client (get_clan_members lib net t).
Proof.
  intros st Hself. rewrite clan_members_state. by apply request_places.
Qed.

Lemma service_places :
  places P (get_clash_royale_service lib (configured credential base tmo)) /\
  forall rs service,
    (get_clash_royale_service lib (configured credential base tmo) rs).1
    = ROk service -> service = client.
Proof.
  split.
  - intros rs. exists []. by rewrite app_nil_r.
  - intros rs service. rewrite service_is_built. by intros [= <-].
Qed.

Lemma places_py_get v key d : places P (py_get v key d).
Proof. destruct v; first [apply places_rret|apply places_rraise]. Qed.

Lemma places_py_len v : places P (py_len v).
Proof. destruct v; first [apply places_rret|apply places_rraise]. Qed.

Lemma places_py_first v : places P (py_first v).
Proof.
  destruct v as [| | | |[|]|[|]|]; first [apply places_rret|apply places_rraise].
Qed.

Lemma places_py_lower v : places P (py_lower v).
Proof. destruct v; first [apply places_rret|apply places_rraise]. Qed.

Lemma places_py_iter v : places P (py_iter v).
Proof. destruct v; first [apply places_rret|apply places_rraise]. Qed.

Lemma places_filtered_cards rarity cards :
  places P (CardRoutes.filtered_cards rarity cards).
Proof.
  induction cards as [|card rest IH]; [apply places_rret|].
  cbn [CardRoutes.filtered_cards].
  apply places_rbind; [apply places_py_get|intros ?].
  apply places_rbind; [apply places_py_lower|intros ?].
  apply places_rbind; [apply IH|intros ?]. apply places_rret.
Qed.

Lemma places_search_card name cards found :
  places P (CardRoutes.search_card name cards found).
Proof.
  revert found. induction cards as [|card rest IH]; intros found;
    [apply places_rret|].
  cbn [CardRoutes.search_card].
  apply places_rbind; [apply places_py_get|intros ?].
  apply places_rbind; [apply places_py_lower|intros ?]. apply IH.
Qed.

(** Shows that a method of the service places configured calls. *)
Ltac method_step :=
  first
    [ apply clan_members_places
    | unfold get_player_info, get_player_battle_log, get_clan_info,
        get_clan_war_log, get_clan_current_war, get_cards,
        get_pol_leaderboard, get_tournaments;
      try case_decide; apply request_places ].

(** Walks through a handler, statement by statement. *)
Ltac place :=
  repeat first
    [ apply places_rret
    | apply places_rraise
    | apply places_logger
    | apply places_py_get
    | apply places_py_len
    | apply places_py_first
    | apply places_py_lower
    | apply places_py_iter
    | apply places_filtered_cards
    | apply places_search_card
    | apply places_rcatch; [|intros ?]
    | match goal with
      | |- places _ (rbind (get_clash_royale_service _ _) _) =>
          apply (places_rbind_post (fun service => service = client));
          [apply service_places|apply service_places|intros ? ->]
      | |- places _ (rbind (call _ _) _) =>
          apply (places_rbind_post (fun answer => answer.1 = client));
          [apply places_call; method_step
          |intros ? ?; apply call_hands_back; method_step
          |intros [? ?]; cbn [fst]; intros ->]
      | |- places _ (rbind _ _) => apply places_rbind; [|intros ?]
      | |- places _ (if ?b then _ else _) => destruct b
      | |- places _ (match ?o with _ => _ end) => destruct o
      end ].

(** X28. Under a configuration that holds the key and the base URL, a
    handler only adds to the log of calls, and every call it adds is a
    GET below the base URL without its trailing slashes, with the header
    [Authorization: Bearer <key>] and the configured timeout, 30 when
    none is configured. *)
Theorem handlers_place_configured_calls (rt : route) rs :
  exists more,
    r_calls (handle lib net float_truth (configured credential base tmo) rt rs).2
    = (r_calls rs ++ more)%list /\
    Forall (configured_call credential base tmo) more.
Proof.
  revert rs.
  change (places P
            (handle lib net float_truth (configured credential base tmo) rt)).
  destruct rt; cbn [handle];
    unfold PlayerRoutes.get_player, PlayerRoutes.get_player_battle_log,
      PlayerRoutes.get_current_deck, PlayerRoutes.current_deck_body,
      PlayerRoutes.get_player_stats, ClanRoutes.get_clan,
      ClanRoutes.get_clan_members, ClanRoutes.get_clan_war_log,
      ClanRoutes.get_clan_current_war, CardRoutes.get_all_cards,
      CardRoutes.get_cards_by_rarity, CardRoutes.get_card_info,
      TournamentRoutes.search_tournaments,
      LeaderboardRoutes.get_pol_leaderboard, CardRoutes.jsonify_set,
      CardRoutes.set_display;
    place.
Qed.

End HandlerCalls.

(** * The properties at concrete inputs *)

Lemma make_request_returns_the_decoded_body_witness :
  let net := net_answers 200 "[]" (inr (JArr [])) in
  let st := fresh requests_2_31 "key" in
  _make_request requests_2_31 net "cards" None st
  = (Ok (JArr []), after_call st "cards" None).
Proof.
  intros net st.
  apply (make_request_returns_the_decoded_body requests_2_31 net "cards" None
           st (demo_response 200 "[]" (inr (JArr []))
                 "https://api.clashroyale.com/v1/cards")).
  - reflexivity.
  - simpl. lia.
  - reflexivity.
Defined.

Lemma only_plain_request_exceptions_escape_witness :
  let net := net_fails (Exc ReadTimeout "Read timed out.") in
  (run requests_2_31 net Call_get_cards (fresh requests_2_31 "key")).1
  = Raise exc_timed_out /\
  exc_cls exc_timed_out = RequestException.
Proof.
  intros net. split; [reflexivity|].
  apply (only_plain_request_exceptions_escape requests_2_31 net Call_get_cards
           (fresh requests_2_31 "key") exc_timed_out).
  - reflexivity.
  - reflexivity.
Defined.

Lemma clan_tag_spelling_does_not_matter_witness :
  let net := net_fails exc_timed_out in
  isascii "2q0j8Yqv" = true /\
  get_clan_info requests_2_31 net (lower "2q0j8Yqv")
  = get_clan_info requests_2_31 net "2q0j8Yqv" /\
  get_clan_war_log requests_2_31 net (lower ("#" +:+ "2q0j8Yqv"))
  = get_clan_war_log requests_2_31 net "2q0j8Yqv".
Proof.
  intros net. split; [reflexivity|].
  destruct (clan_tag_spelling_does_not_matter requests_2_31 net "2q0j8Yqv")
    as (_ & _ & Hlower & _ & Hlog & _); [reflexivity|].
  split; [exact Hlower|exact Hlog].
Defined.


Lemma clan_members_shape_witness :
  let net := net_answers 200 "[]" (inr (JArr [])) in
  (get_clan_members requests_2_31 net "2Q0J8YQV" (fresh requests_2_31 "key")).1
  = Raise (Exc AttributeError "'list' object has no attribute 'get'").
Proof.
  intros net.
  apply (clan_members_shape requests_2_31 net "2Q0J8YQV"
           (fresh requests_2_31 "key") (JArr [])).
  reflexivity.
Defined.

Lemma upstream_error_statuses_are_answered_400_witness :
  let net := net_answers 503 "down" (inl "") in
  handle requests_2_31 net demo_float_truth demo_config
    (Players_get_player "P0LYJC8L") idle
  = (ROk (error_response "API request failed with status 503: down" 400),
     {| r_calls :=
          [wire_request (demo_state requests_2_31) "players/%23P0LYJC8L" None];
        app_log := [] |}).
Proof.
  intros net.
  apply (upstream_error_statuses_are_answered_400
           (Players_get_player "P0LYJC8L") requests_2_31 net demo_float_truth
           "key" Config.CLASH_ROYALE_API_BASE_URL None
           (Call_get_player_info "P0LYJC8L") idle
           (wire_request (demo_state requests_2_31) "players/%23P0LYJC8L" None)
           (demo_response 503 "down" (inl "")
              "https://api.clashroyale.com/v1/players/%23P0LYJC8L")).
  - reflexivity.
  - reflexivity.
  - reflexivity.
  - reflexivity.
  - simpl. lia.
Defined.

Lemma routes_without_value_error_clause_answer_500_witness :
  let net := net_answers 404 "" (inl "") in
  exists message line,
    handle requests_2_31 net demo_float_truth demo_config
      (Leaderboards_get_pol_leaderboard "1999-01") idle
    = (ROk (error_response message 500),
       {| r_calls :=
            [wire_request (demo_state requests_2_31)
               "locations/global/pathoflegend/1999-01/rankings/players" None];
          app_log := [line] |}).
Proof.
  intros net.
  destruct (routes_without_value_error_clause_answer_500
              (Leaderboards_get_pol_leaderboard "1999-01")) as [message H].
  exists message.
  apply (H requests_2_31 net demo_float_truth "key"
           Config.CLASH_ROYALE_API_BASE_URL None
           (Call_get_pol_leaderboard "1999-01") idle
           (wire_request (demo_state requests_2_31)
              "locations/global/pathoflegend/1999-01/rankings/players" None)
           (demo_response 404 "" (inl "")
              "https://api.clashroyale.com/v1/locations/global/pathoflegend/1999-01/rankings/players")).
  - reflexivity.
  - reflexivity.
  - reflexivity.
  - reflexivity.
  - simpl. lia.
Defined.

Lemma network_failures_are_answered_500_witness :
  let net := net_fails (Exc ConnectionError "Connection refused") in
  exists message prefix detail,
    handle requests_2_31 net demo_float_truth demo_config
      (Clans_get_clan "2Q0J8YQV") idle
    = (ROk (error_response message 500),
       {| r_calls :=
            [wire_request (demo_state requests_2_31) "clans/2Q0J8YQV" None];
          app_log := [prefix +:+ detail] |}) /\
    (detail = exc_msg exc_timed_out \/
     detail = exc_msg (exc_connect_failed "Connection refused")).
Proof.
  intros net.
  destruct (network_failures_are_answered_500 (Clans_get_clan "2Q0J8YQV"))
    as (message & prefix & H).
  exists message, prefix.
  apply (H requests_2_31 net demo_float_truth "key"
           Config.CLASH_ROYALE_API_BASE_URL None
           (Call_get_clan_info "2Q0J8YQV") idle
           (wire_request (demo_state requests_2_31) "clans/2Q0J8YQV" None)
           (Exc ConnectionError "Connection refused")).
  - reflexivity.
  - reflexivity.
  - reflexivity.
  - reflexivity.
  - reflexivity.
Defined.

Lemma upstream_body_is_passed_through_witness :
  let net := net_answers 200 "[]" (inr (JArr [])) in
  handle requests_2_31 net demo_float_truth demo_config Cards_get_all_cards idle
  = (ROk {| http_body :=
              JObj (<["success" := JBool true]> {["data" := JArr []]});
            http_status := 200 |},
     {| r_calls := [wire_request (demo_state requests_2_31) "cards" None];
        app_log := [] |}).
Proof.
  intros net.
  apply (upstream_body_is_passed_through Cards_get_all_cards requests_2_31 net
           demo_float_truth "key" Config.CLASH_ROYALE_API_BASE_URL None
           Call_get_cards idle
           (wire_request (demo_state requests_2_31) "cards" None)
           (demo_response 200 "[]" (inr (JArr []))
              "https://api.clashroyale.com/v1/cards") (JArr [])).
  - reflexivity.
  - discriminate.
  - reflexivity.
  - reflexivity.
  - reflexivity.
  - simpl. lia.
  - reflexivity.
Defined.

Lemma undecodable_body_answer_depends_on_the_library_witness :
  let net := net_answers 200 "<html>" (inl "Expecting value") in
  (handle requests_2_25 net demo_float_truth demo_config
     (Players_get_player "P0LYJC8L") idle).1
  = ROk (error_response "Expecting value" 400) /\
  exists message,
    (handle requests_2_31 net demo_float_truth demo_config
       (Players_get_player "P0LYJC8L") idle).1
    = ROk (error_response message 500).
Proof.
  intros net.
  destruct (undecodable_body_answer_depends_on_the_library
              (Players_get_player "P0LYJC8L")) as [message H].
  split.
  - apply (H requests_2_25 net demo_float_truth "key"
             Config.CLASH_ROYALE_API_BASE_URL None
             (Call_get_player_info "P0LYJC8L") idle
             (wire_request (demo_state requests_2_25) "players/%23P0LYJC8L" None)
             (demo_response 200 "<html>" (inl "Expecting value")
                "https://api.clashroyale.com/v1/players/%23P0LYJC8L")
             "Expecting value").
    + reflexivity.
    + reflexivity.
    + reflexivity.
    + reflexivity.
    + simpl. lia.
    + reflexivity.
  - exists message.
    apply (H requests_2_31 net demo_float_truth "key"
             Config.CLASH_ROYALE_API_BASE_URL None
             (Call_get_player_info "P0LYJC8L") idle
             (wire_request (demo_state requests_2_31) "players/%23P0LYJC8L" None)
             (demo_response 200 "<html>" (inl "Expecting value")
                "https://api.clashroyale.com/v1/players/%23P0LYJC8L")
             "Expecting value").
    + reflexivity.
    + reflexivity.
    + reflexivity.
    + reflexivity.
    + simpl. lia.
    + reflexivity.
Defined.

Lemma current_deck_is_empty_without_battles_witness :
  let net := net_answers 200 "[]" (inr (JArr [])) in
  (PlayerRoutes.get_current_deck requests_2_31 net demo_float_truth demo_config
     "P0LYJC8L" idle).1
  = ROk {| http_body :=
             JObj (<["success" := JBool true]>
                     (<["data" := JArr []]>
                        {["message" :=
                            JStr "No recent battles found for this player"]}));
           http_status := 200 |}.
Proof.
  intros net. unfold demo_config.
  rewrite (current_deck_is_empty_without_battles requests_2_31 net
             demo_float_truth "key" Config.CLASH_ROYALE_API_BASE_URL None
             "P0LYJC8L" idle (JArr [])).
  - vm_compute. reflexivity.
  - vm_compute. reflexivity.
  - discriminate.
Defined.

Lemma current_deck_needs_a_team_witness :
  let battle : gmap string json := {["type" := JStr "PvP"]} in
  let net := net_answers 200 "[...]" (inr (JArr [JObj battle])) in
  (PlayerRoutes.get_current_deck requests_2_31 net demo_float_truth demo_config
     "P0LYJC8L" idle).1
  = ROk (error_response "No team data found in the most recent battle" 404).
Proof.
  intros battle net.
  apply (current_deck_needs_a_team requests_2_31 net demo_float_truth "key"
           Config.CLASH_ROYALE_API_BASE_URL None "P0LYJC8L" idle battle []).
  - vm_compute. reflexivity.
  - vm_compute. reflexivity.
Defined.

Lemma current_deck_is_read_off_the_latest_battle_witness :
  let net := net_answers 200 "[...]" (inr demo_battle_log) in
  (PlayerRoutes.get_current_deck requests_2_31 net demo_float_truth demo_config
     "P0LYJC8L" idle).1
  = ROk {| http_body :=
             JObj (<["success" := JBool true]>
                     (<["data" := JArr [demo_card]]>
                        (<["battleTime" := JNull]>
                           (<["battleType" := JStr "PvP"]>
                              {["gameMode" := JNull]}))));
           http_status := 200 |}.
Proof.
  intros net. unfold demo_config.
  rewrite (current_deck_is_read_off_the_latest_battle requests_2_31 net
             demo_float_truth "key" Config.CLASH_ROYALE_API_BASE_URL None
             "P0LYJC8L" idle demo_battle [] demo_player [] ∅)
    by (vm_compute; reflexivity).
  vm_compute. reflexivity.
Defined.

Lemma current_deck_rejects_other_shapes_witness :
  let battle : gmap string json := {["team" := JNum 3]} in
  (PlayerRoutes.get_current_deck requests_2_31
     (net_answers 200 "[3]" (inr (JArr [JNum 3]))) demo_float_truth demo_config
     "P0LYJC8L" idle).1
  = ROk (error_response
           "An unexpected error occurred while fetching current deck" 500) /\
  (PlayerRoutes.get_current_deck requests_2_31
     (net_answers 200 "[...]" (inr (JArr [JObj battle]))) demo_float_truth
     demo_config "P0LYJC8L" idle).1
  = ROk (error_response
           "Failed to extract deck from battle log. Battle data structure may be invalid."
           500).
Proof.
  intros battle. split.
  - apply (current_deck_rejects_other_shapes requests_2_31
             (net_answers 200 "[3]" (inr (JArr [JNum 3]))) demo_float_truth
             "key" Config.CLASH_ROYALE_API_BASE_URL None "P0LYJC8L" idle
             (JNum 3) []).
    vm_compute. reflexivity.
  - apply (current_deck_rejects_other_shapes requests_2_31
             (net_answers 200 "[...]" (inr (JArr [JObj battle])))
             demo_float_truth "key" Config.CLASH_ROYALE_API_BASE_URL None
             "P0LYJC8L" idle (JObj battle) [] eq_refl 3).
    + vm_compute. reflexivity.
    + lia.
Defined.


Lemma cards_by_rarity_fails_on_one_unreadable_card_witness :
  let cards : gmap string json := {["items" := JArr [demo_card; JNull]]} in
  let net := net_answers 200 "{...}" (inr (JObj cards)) in
  (CardRoutes.get_cards_by_rarity requests_2_31 net demo_config "Common" idle).1
  = ROk (error_response "An unexpected error occurred while fetching cards" 500).
Proof.
  intros cards net.
  apply (cards_by_rarity_fails_on_one_unreadable_card requests_2_31 net "key"
           Config.CLASH_ROYALE_API_BASE_URL None "Common" idle cards
           [demo_card; JNull]).
  - vm_compute. reflexivity.
  - vm_compute. reflexivity.
  - apply Exists_cons_tl, Exists_cons_hd.
    intros (fields & s & Hcard & _). discriminate Hcard.
Defined.

Lemma cards_by_rarity_ignores_the_case_asked_witness :
  let net := net_answers 200 "{...}" (inr (JObj demo_cards)) in
  isascii "Legendary" = true /\
  (CardRoutes.get_cards_by_rarity requests_2_31 net demo_config
     (upper "Legendary") idle).1
  = (CardRoutes.get_cards_by_rarity requests_2_31 net demo_config
       "Legendary" idle).1.
Proof.
  intros net. split; [reflexivity|].
  apply (cards_by_rarity_ignores_the_case_asked requests_2_31 net demo_config
           "Legendary" idle).
  reflexivity.
Defined.

Lemma tournament_search_requires_a_name_witness :
  TournamentRoutes.search_tournaments requests_2_31 (net_fails exc_timed_out)
    demo_config ∅ idle
  = (ROk (error_response
            "Tournament name is required. Use ?name=<tournament_name>" 400),
     idle).
Proof.
  apply (tournament_search_requires_a_name requests_2_31
           (net_fails exc_timed_out) demo_config ∅ idle).
  left. reflexivity.
Defined.

Lemma player_stats_places_two_calls_witness :
  let net := net_answers 200 "{...}" (inr (JObj demo_info)) in
  (PlayerRoutes.get_player_stats requests_2_31 net demo_config "P0LYJC8L" idle).1
  = ROk (success_response
           (JObj (<["player_tag" := JNull]>
             (<["player_name" := JStr "Ann"]>
             (<["current_trophies" := JNull]>
             (<["best_trophies" := JNull]>
             (<["total_battles" := JNum 0]>
             (<["total_wins" := JNum 7]>
                {["total_losses" := JNum 0]})))))))).
Proof.
  intros net. unfold demo_config.
  assert (get_player_info requests_2_31 net "P0LYJC8L"
            (service_state requests_2_31 "key" Config.CLASH_ROYALE_API_BASE_URL
               None idle)
          = (Ok (JObj demo_info),
             after_call (demo_state requests_2_31) "players/%23P0LYJC8L" None))
    as Hfirst by (vm_compute; reflexivity).
  destruct (player_stats_places_two_calls requests_2_31 net "key"
              Config.CLASH_ROYALE_API_BASE_URL None "P0LYJC8L" idle demo_info
              _ Hfirst) as (_ & Hreturns & _).
  rewrite (Hreturns (JObj demo_info)
             (after_call
                (after_call (demo_state requests_2_31) "players/%23P0LYJC8L"
                   None)
                "players/%23P0LYJC8L/battlelog" None))
    by (vm_compute; reflexivity).
  vm_compute. reflexivity.
Defined.

Lemma missing_configuration_is_answered_500_witness :
  let cfg := {| CLASH_ROYALE_API_KEY := None;
                CLASH_ROYALE_API_BASE_URL :=
                  Some Config.CLASH_ROYALE_API_BASE_URL;
                API_REQUEST_TIMEOUT := Some 30 |} in
  exists resp line,
    handle requests_2_31 (net_answers 200 "[]" (inr (JArr []))) demo_float_truth
      cfg Cards_get_all_cards idle
    = (ROk resp, {| r_calls := []; app_log := [line] |}) /\
    http_status resp = 500.
Proof.
  intros cfg.
  apply (missing_configuration_is_answered_500 requests_2_31
           (net_answers 200 "[]" (inr (JArr []))) demo_float_truth cfg
           Cards_get_all_cards idle).
  - left. reflexivity.
  - eexists. reflexivity.
Defined.

Lemma api_key_is_stripped_and_real_witness :
  Config.get_api_key "api_key.txt" (Some "  sk-123  ") = ROk "sk-123" /\
  Config.get_api_key "api_key.txt" (Some "sk-123") = ROk "sk-123".
Proof.
  split; [reflexivity|].
  apply (api_key_is_stripped_and_real "api_key.txt" (Some "  sk-123  ") "sk-123").
  reflexivity.
Defined.

Lemma api_key_rejects_missing_blank_and_placeholder_witness :
  exists message,
    Config.get_api_key "api_key.txt" (Some " YOUR_CLASH_ROYALE_API_KEY_HERE ")
    = RRaise (PyExc (Lib ValueError) message).
Proof.
  apply (api_key_rejects_missing_blank_and_placeholder "api_key.txt"
           (Some " YOUR_CLASH_ROYALE_API_KEY_HERE ")).
  right. reflexivity.
Defined.
